(** * liveData: the streaming relay of Lab-93/MarketData

  A shallow embedding of [src/liveData/__init__.py] and the properties
  of its relay core.

  The module receives quote events from a market data stream and
  forwards each one, as a JSON document, to a socket server.  The
  embedding follows the Python text statement by statement:

  - Python values that reach [json.dumps] are the inductive [pyval];
    a [dict] is an association list in insertion order, because the
    serializer walks it in that order;
  - a Python [float] is an IEEE 754 binary64 number ([spec_float] with
    precision 53), with the conversions Python uses: correctly
    rounded reading of a decimal, and [repr], the shortest decimal
    that reads back as the same number;
  - statements run in a small monad over a [world]: the server
    object, the sockets, and the trace of calls made to the outside;
    a statement ends normally, by [return], by raising, or not at all;
  - the environment (credential store, stream client, socket peer) is
    a record of answers, read by the primitives that model the calls
    into the libraries. *)

From Stdlib Require Import ZArith List String Ascii Bool Lia.
From Stdlib Require Import Floats.SpecFloat.
Import ListNotations.

Set Warnings "-register-all".
Open Scope Z_scope.

(** ** Python floats *)

Module PyFloat.

Definition prec : Z := 53.
Definition emax : Z := 1024.

Definition float : Type := spec_float.

(** The binary64 number nearest to the fraction [n / d], ties to even.
    This is Python's [int / int] and the reading of a decimal numeral. *)
Definition of_ratio (neg : bool) (n d : positive) : float :=
  let '(q, e, l) := SFdiv_core_binary prec emax (Zpos n) 0 (Zpos d) 0 in
  binary_round_aux prec emax neg q e l.

(** [float] of the decimal [m * 10^e10], as [float("...")] reads it. *)
Definition of_decimal (neg : bool) (m e10 : Z) : float :=
  match m with
  | Zpos p =>
      match e10 with
      | Zneg k => of_ratio neg p (Pos.pow 10 k)
      | Z0 => of_ratio neg p 1
      | Zpos k => of_ratio neg (p * Pos.pow 10 k) 1
      end
  | _ => S754_zero neg
  end.

Definition float_eqb (x y : float) : bool :=
  match x, y with
  | S754_zero a, S754_zero b => Bool.eqb a b
  | S754_infinity a, S754_infinity b => Bool.eqb a b
  | S754_nan, S754_nan => true
  | S754_finite a m e, S754_finite b m' e' =>
      Bool.eqb a b && Pos.eqb m m' && Z.eqb e e'
  | _, _ => false
  end.

Fixpoint digits_loop (fuel : nat) (z : Z) (acc : list Z) : list Z :=
  match fuel with
  | O => acc
  | S f => if z <? 10 then z :: acc
           else digits_loop f (z / 10) (z mod 10 :: acc)
  end.

(** Decimal digits of a natural number, most significant first. *)
Definition decimal_digits (z : Z) : list Z :=
  digits_loop (S (Z.to_nat (Z.log2 z))) z [].

Definition ndigits (z : Z) : Z := Z.of_nat (List.length (decimal_digits z)).

(** [floor (log10 (n / d))]. *)
Definition log10_floor (n d : positive) : Z :=
  if Zpos d <=? Zpos n
  then ndigits (Zpos n / Zpos d) - 1
  else - ndigits ((Zpos d + Zpos n - 1) / Zpos n - 1).

(** The value of the finite float [m * 2^e] as a fraction. *)
Definition exact_ratio (m : positive) (e : Z) : positive * positive :=
  match e with
  | Zneg k => (m, Pos.pow 2 k)
  | Z0 => (m, 1%positive)
  | Zpos k => ((m * Pos.pow 2 k)%positive, 1%positive)
  end.

(** Among the decimals [D * 10^E] of [nd] significant digits that read
    back as [m * 2^e], the one nearest to it, if there is one. *)
Definition candidate (m : positive) (e : Z) (nd : Z) : option (Z * Z) :=
  let '(n, d) := exact_ratio m e in
  let E := log10_floor n d - nd + 1 in
  let '(N, D) := if E <? 0 then (Zpos n * 10 ^ (- E), Zpos d)
                 else (Zpos n, Zpos d * 10 ^ E) in
  let lo := N / D in
  let r := N mod D in
  let x := S754_finite false m e in
  let ok_lo := float_eqb (of_decimal false lo E) x in
  let ok_hi := float_eqb (of_decimal false (lo + 1) E) x in
  match ok_lo, ok_hi with
  | true, true =>
      match 2 * r ?= D with
      | Lt => Some (lo, E)
      | Gt => Some (lo + 1, E)
      | Eq => Some (if Z.even lo then lo else lo + 1, E)
      end
  | true, false => Some (lo, E)
  | false, true => Some (lo + 1, E)
  | false, false => None
  end.

(** The shortest decimal that reads back as the float: 17 digits
    always suffice for binary64. *)
Fixpoint shortest (fuel : nat) (m : positive) (e : Z) (nd : Z) : Z * Z :=
  match fuel with
  | O => (Zpos m, 0)
  | S f => match candidate m e nd with
           | Some c => c
           | None => shortest f m e (nd + 1)
           end
  end.

Fixpoint strip_zeros (fuel : nat) (D E : Z) : Z * Z :=
  match fuel with
  | O => (D, E)
  | S f => if (D mod 10 =? 0) && (0 <? D)
           then strip_zeros f (D / 10) (E + 1)
           else (D, E)
  end.

Definition digit_char (d : Z) : ascii := ascii_of_N (48 + Z.to_N d).

Definition digit_string (ds : list Z) : string :=
  string_of_list_ascii (map digit_char ds).

Definition zeros (n : Z) : string :=
  string_of_list_ascii (repeat "0"%char (Z.to_nat n)).

(** The layout of [repr]: the digits [ds] with the decimal point after
    the first [decpt] of them; exponent notation when [decpt <= -4] or
    [decpt > 16]; a fraction part is always shown in fixed notation. *)
Definition format_short (ds : list Z) (decpt : Z) : string :=
  let len := Z.of_nat (List.length ds) in
  if (decpt <=? -4) || (16 <? decpt) then
    let ex := decpt - 1 in
    let mant :=
      match ds with
      | [] => "0"%string
      | [d] => digit_string [d]
      | d :: rest => (digit_string [d] ++ "." ++ digit_string rest)%string
      end in
    let exds := decimal_digits (Z.abs ex) in
    let exs := if Z.abs ex <? 10
               then ("0" ++ digit_string exds)%string
               else digit_string exds in
    let sgn := if ex <? 0 then "-"%string else "+"%string in
    (mant ++ "e" ++ sgn ++ exs)%string
  else if decpt <=? 0 then
    ("0." ++ zeros (- decpt) ++ digit_string ds)%string
  else if len <=? decpt then
    (digit_string ds ++ zeros (decpt - len) ++ ".0")%string
  else
    (digit_string (firstn (Z.to_nat decpt) ds) ++ "." ++
     digit_string (skipn (Z.to_nat decpt) ds))%string.

(** [float.__repr__]. *)
Definition repr (x : float) : string :=
  match x with
  | S754_zero s => if s then "-0.0"%string else "0.0"%string
  | S754_infinity s => if s then "-inf"%string else "inf"%string
  | S754_nan => "nan"%string
  | S754_finite s m e =>
      let '(D0, E0) := shortest 17 m e 1 in
      let '(D, E) := strip_zeros 20 D0 E0 in
      let ds := decimal_digits D in
      let body := format_short ds (Z.of_nat (List.length ds) + E) in
      if s then ("-" ++ body)%string else body
  end.

(** [repr] of an [int]. *)
Definition int_repr (z : Z) : string :=
  let body := digit_string (decimal_digits (Z.abs z)) in
  if z <? 0 then ("-" ++ body)%string else body.

End PyFloat.

(** ** Python values and the [json] module *)

Module PyJson.
Import PyFloat.

(** The values [json.dumps] accepts.  A [str] is a [string] whose
    characters are the code points U+0000 to U+00FF. *)
Inductive pyval : Type :=
| PNone
| PBool (b : bool)
| PInt (z : Z)
| PFloat (x : float)
| PStr (s : string)
| PList (l : list pyval)
| PDict (d : list (string * pyval)).

Definition pydict : Type := list (string * pyval).

(** [d.get(k)]. *)
Fixpoint dict_get (d : pydict) (k : string) : option pyval :=
  match d with
  | [] => None
  | (k', v) :: rest => if String.eqb k k' then Some v else dict_get rest k
  end.

(** [d[k] = v]: a key already present keeps its place, a new key goes
    last. *)
Fixpoint dict_set (d : pydict) (k : string) (v : pyval) : pydict :=
  match d with
  | [] => [(k, v)]
  | (k', v') :: rest =>
      if String.eqb k k' then (k, v) :: rest
      else (k', v') :: dict_set rest k v
  end.

Definition dquote : ascii := ascii_of_N 34.
Definition backslash : ascii := ascii_of_N 92.

Definition hex_char (n : N) : ascii :=
  if (n <? 10)%N then ascii_of_N (48 + n) else ascii_of_N (87 + n).

Definition str1 (c : ascii) : string := String c EmptyString.
Definition esc (c : ascii) : string := String backslash (str1 c).

(** One character of a JSON string under [ensure_ascii=True]: the
    printable ASCII characters stand for themselves, except the quote
    and the backslash; the others are escaped. *)
Definition escape_char (c : ascii) : string :=
  let n := N_of_ascii c in
  if (n =? 34)%N then esc dquote
  else if (n =? 92)%N then esc backslash
  else if (n =? 10)%N then esc "n"
  else if (n =? 13)%N then esc "r"
  else if (n =? 9)%N then esc "t"
  else if (n =? 8)%N then esc "b"
  else if (n =? 12)%N then esc "f"
  else if ((32 <=? n) && (n <=? 126))%N then str1 c
  else (esc "u" ++ "00" ++ str1 (hex_char (n / 16))
          ++ str1 (hex_char (n mod 16)))%string.

Fixpoint escape_body (s : string) : string :=
  match s with
  | EmptyString => EmptyString
  | String c rest => (escape_char c ++ escape_body rest)%string
  end.

Definition encode_str (s : string) : string :=
  (str1 dquote ++ escape_body s ++ str1 dquote)%string.

(** A text written with apostrophes, read with double quotes in their
    place: the way JSON texts are written down in this file. *)
Fixpoint with_quotes (s : string) : string :=
match s with
| EmptyString => EmptyString
| String c rest =>
    String (if (N_of_ascii c =? 39)%N then dquote else c) (with_quotes rest)
end.

(** A float in a document: [repr], with the names JavaScript gives
    to the non-finite values ([allow_nan=True]). *)
Definition encode_float (x : float) : string :=
  match x with
  | S754_nan => "NaN"%string
  | S754_infinity false => "Infinity"%string
  | S754_infinity true => "-Infinity"%string
  | _ => repr x
  end.

(** [json.dumps(v)] with the default arguments: separators [", "] and
    [": "], dictionary entries in insertion order. *)
Fixpoint dumps (v : pyval) : string :=
  match v with
  | PNone => "null"%string
  | PBool b => if b then "true"%string else "false"%string
  | PInt z => int_repr z
  | PFloat x => encode_float x
  | PStr s => encode_str s
  | PList l =>
      let fix items (l : list pyval) : string :=
        match l with
        | [] => EmptyString
        | [x] => dumps x
        | x :: rest => (dumps x ++ ", " ++ items rest)%string
        end in
      ("[" ++ items l ++ "]")%string
  | PDict d =>
      let fix members (d : list (string * pyval)) : string :=
        match d with
        | [] => EmptyString
        | [(k, x)] => (encode_str k ++ ": " ++ dumps x)%string
        | (k, x) :: rest =>
            (encode_str k ++ ": " ++ dumps x ++ ", " ++ members rest)%string
        end in
      ("{" ++ members d ++ "}")%string
  end.

(** [bytes(s, encoding="utf-8")] for the code points of a [str]. *)
Definition utf8_char (c : ascii) : list Byte.byte :=
  let n := N_of_ascii c in
  if (n <? 128)%N then [byte_of_ascii c]
  else [byte_of_ascii (ascii_of_N (192 + n / 64));
        byte_of_ascii (ascii_of_N (128 + n mod 64))].

Fixpoint utf8_encode (s : string) : list Byte.byte :=
  match s with
  | EmptyString => []
  | String c rest => utf8_char c ++ utf8_encode rest
  end.

(** The inverse reading, for the same range of code points. *)
Fixpoint utf8_decode (fuel : nat) (bs : list Byte.byte) : option string :=
  match fuel with
  | O => None
  | S f =>
      match bs with
      | [] => Some EmptyString
      | b :: rest =>
          let n := Byte.to_N b in
          if (n <? 128)%N then
            option_map (String (ascii_of_byte b)) (utf8_decode f rest)
          else if ((194 <=? n) && (n <=? 195))%N then
            match rest with
            | b2 :: rest2 =>
                let n2 := Byte.to_N b2 in
                if ((128 <=? n2) && (n2 <? 192))%N then
                  option_map
                    (String (ascii_of_N ((n - 192) * 64 + (n2 - 128))))
                    (utf8_decode f rest2)
                else None
            | [] => None
            end
          else None
      end
  end.

(** *** The decoder

    [json.loads], the reader of RFC 8259 documents: what the peer of
    the relay runs on the bytes it receives.  A numeral with a fraction
    or an exponent is read as the nearest float, any other as an [int];
    the names [NaN], [Infinity] and [-Infinity] are read as the floats
    [dumps] writes them for; an object is read into a [dict], a
    repeated key taking the last value. *)

Definition is_ws (c : ascii) : bool :=
let n := N_of_ascii c in
((n =? 32) || (n =? 9) || (n =? 10) || (n =? 13))%N.

Fixpoint skip_ws (s : list ascii) : list ascii :=
match s with
| c :: rest => if is_ws c then skip_ws rest else s
| [] => []
end.

Definition digit_val (c : ascii) : option Z :=
let n := N_of_ascii c in
if ((48 <=? n) && (n <=? 57))%N then Some (Z.of_N (n - 48)) else None.

Definition hex_val (c : ascii) : option N :=
let n := N_of_ascii c in
if ((48 <=? n) && (n <=? 57))%N then Some (n - 48)%N
else if ((97 <=? n) && (n <=? 102))%N then Some (n - 87)%N
else if ((65 <=? n) && (n <=? 70))%N then Some (n - 55)%N
else None.

(** The longest prefix of digits, as the number it denotes, with its
    length. *)
Fixpoint take_digits (s : list ascii) (acc : Z) (len : Z)
  : Z * Z * list ascii :=
match s with
| c :: rest =>
    match digit_val c with
    | Some d => take_digits rest (10 * acc + d) (len + 1)
    | None => (acc, len, s)
    end
| [] => (acc, len, [])
end.

Definition leading_zero (s : list ascii) : bool :=
match s with
| c :: _ => (N_of_ascii c =? 48)%N
| [] => false
end.

Definition parse_exponent (s : list ascii) : option (Z * list ascii) :=
match s with
| c :: rest =>
    let n := N_of_ascii c in
    if ((n =? 101) || (n =? 69))%N then
      let '(neg, rest1) :=
        match rest with
        | c1 :: r1 =>
            if (N_of_ascii c1 =? 45)%N then (true, r1)
            else if (N_of_ascii c1 =? 43)%N then (false, r1)
            else (false, rest)
        | [] => (false, rest)
        end in
      let '(v, len, rest2) := take_digits rest1 0 0 in
      if len =? 0 then None
      else Some (if neg then - v else v, rest2)
    else Some (0, s)
| [] => Some (0, s)
end.

Definition has_exponent (s : list ascii) : bool :=
match s with
| c :: _ => let n := N_of_ascii c in ((n =? 101) || (n =? 69))%N
| [] => false
end.

Definition parse_number (s : list ascii) : option (pyval * list ascii) :=
let '(neg, s1) :=
  match s with
  | c :: rest => if (N_of_ascii c =? 45)%N then (true, rest) else (false, s)
  | [] => (false, s)
  end in
let '(ip, ilen, s2) := take_digits s1 0 0 in
if (ilen =? 0) || (leading_zero s1 && (1 <? ilen)) then None
else
  let frac :=
    match s2 with
    | c :: rest =>
        if (N_of_ascii c =? 46)%N then
          let '(m, flen, s3) := take_digits rest ip 0 in
          if flen =? 0 then None else Some (m, flen, s3)
        else Some (ip, 0, s2)
    | [] => Some (ip, 0, s2)
    end in
  match frac with
  | None => None
  | Some (m, flen, s3) =>
      match parse_exponent s3 with
      | None => None
      | Some (ex, s4) =>
          if (flen =? 0) && negb (has_exponent s3)
          then Some (PInt (if neg then - m else m), s4)
          else Some (PFloat (of_decimal neg m (ex - flen)), s4)
      end
  end.

(** The characters of a string after its opening quote, up to the
    closing one. *)
Fixpoint parse_chars (fuel : nat) (s : list ascii) (acc : list ascii)
  : option (string * list ascii) :=
match fuel with
| O => None
| S f =>
    match s with
    | [] => None
    | c :: rest =>
        let n := N_of_ascii c in
        if (n =? 34)%N then Some (string_of_list_ascii (rev acc), rest)
        else if (n =? 92)%N then
          match rest with
          | e :: rest1 =>
              let k := N_of_ascii e in
              if (k =? 34)%N then parse_chars f rest1 (dquote :: acc)
              else if (k =? 92)%N then parse_chars f rest1 (backslash :: acc)
              else if (k =? 47)%N then parse_chars f rest1 ("/"%char :: acc)
              else if (k =? 110)%N then parse_chars f rest1 (ascii_of_N 10 :: acc)
              else if (k =? 114)%N then parse_chars f rest1 (ascii_of_N 13 :: acc)
              else if (k =? 116)%N then parse_chars f rest1 (ascii_of_N 9 :: acc)
              else if (k =? 98)%N then parse_chars f rest1 (ascii_of_N 8 :: acc)
              else if (k =? 102)%N then parse_chars f rest1 (ascii_of_N 12 :: acc)
              else if (k =? 117)%N then
                match rest1 with
                | h1 :: h2 :: h3 :: h4 :: rest2 =>
                    match hex_val h1, hex_val h2, hex_val h3, hex_val h4 with
                    | Some 0%N, Some 0%N, Some a, Some b =>
                        parse_chars f rest2 (ascii_of_N (16 * a + b) :: acc)
                    | _, _, _, _ => None
                    end
                | _ => None
                end
              else None
          | [] => None
          end
        else if (n <? 32)%N then None
        else parse_chars f rest (c :: acc)
    end
end.

Definition parse_string (s : list ascii) : option (string * list ascii) :=
parse_chars (S (List.length s)) s [].

Fixpoint expect (lit : list ascii) (s : list ascii) : option (list ascii) :=
match lit, s with
| [], _ => Some s
| a :: lit', b :: s' => if Ascii.eqb a b then expect lit' s' else None
| _ :: _, [] => None
end.

Definition literal (lit : string) (v : pyval) (s : list ascii)
  : option (pyval * list ascii) :=
option_map (fun rest => (v, rest)) (expect (list_ascii_of_string lit) s).

Fixpoint parse_value (fuel : nat) (s : list ascii)
  : option (pyval * list ascii) :=
match fuel with
| O => None
| S f =>
    match skip_ws s with
    | [] => None
    | c :: rest =>
        let n := N_of_ascii c in
        if (n =? 34)%N then
          option_map (fun r => (PStr (fst r), snd r)) (parse_string rest)
        else if (n =? 123)%N then
          match skip_ws rest with
          | c1 :: rest1 =>
              if (N_of_ascii c1 =? 125)%N then Some (PDict [], rest1)
              else parse_members f rest []
          | [] => None
          end
        else if (n =? 91)%N then
          match skip_ws rest with
          | c1 :: rest1 =>
              if (N_of_ascii c1 =? 93)%N then Some (PList [], rest1)
              else parse_elements f rest []
          | [] => None
          end
        else if (n =? 116)%N then literal "true" (PBool true) (c :: rest)
        else if (n =? 102)%N then literal "false" (PBool false) (c :: rest)
        else if (n =? 110)%N then literal "null" PNone (c :: rest)
        else
          match parse_number (c :: rest) with
          | Some r => Some r
          | None =>
              if (n =? 78)%N
              then literal "NaN" (PFloat S754_nan) (c :: rest)
              else if (n =? 73)%N
              then literal "Infinity" (PFloat (S754_infinity false)) (c :: rest)
              else if (n =? 45)%N
              then literal "-Infinity" (PFloat (S754_infinity true)) (c :: rest)
              else None
          end
    end
end

with parse_elements (fuel : nat) (s : list ascii) (acc : list pyval)
  : option (pyval * list ascii) :=
match fuel with
| O => None
| S f =>
    match parse_value f s with
    | None => None
    | Some (v, rest) =>
        match skip_ws rest with
        | c :: rest1 =>
            if (N_of_ascii c =? 44)%N then parse_elements f rest1 (v :: acc)
            else if (N_of_ascii c =? 93)%N
                 then Some (PList (rev (v :: acc)), rest1)
                 else None
        | [] => None
        end
    end
end

with parse_members (fuel : nat) (s : list ascii) (acc : pydict)
  : option (pyval * list ascii) :=
match fuel with
| O => None
| S f =>
    match skip_ws s with
    | q :: rest =>
        if (N_of_ascii q =? 34)%N then
          match parse_string rest with
          | None => None
          | Some (k, rest1) =>
              match skip_ws rest1 with
              | c :: rest2 =>
                  if (N_of_ascii c =? 58)%N then
                    match parse_value f rest2 with
                    | None => None
                    | Some (v, rest3) =>
                        match skip_ws rest3 with
                        | c3 :: rest4 =>
                            if (N_of_ascii c3 =? 44)%N
                            then parse_members f rest4 (dict_set acc k v)
                            else if (N_of_ascii c3 =? 125)%N
                                 then Some (PDict (dict_set acc k v), rest4)
                                 else None
                        | [] => None
                        end
                    end
                  else None
              | [] => None
              end
          end
        else None
    | [] => None
    end
end.

(** [json.loads(s)] for a [str]. *)
Definition loads (s : string) : option pyval :=
let cs := list_ascii_of_string s in
match parse_value (S (List.length cs)) cs with
| Some (v, rest) =>
    match skip_ws rest with
    | [] => Some v
    | _ :: _ => None
    end
| None => None
end.

(** [json.loads(b)] for [bytes] in UTF-8. *)
Definition loads_bytes (bs : list Byte.byte) : option pyval :=
match utf8_decode (S (List.length bs)) bs with
| Some s => loads s
| None => None
end.

End PyJson.

(** ** The runtime: worlds, outcomes and the calls into the libraries *)

Module Runtime.
Import PyFloat PyJson.

(** Exceptions the program meets.  All of them are instances of
    [Exception], so an [except Exception] clause catches each. *)
Inductive exn : Type :=
| NameError (name : string)
| OSError (errno : Z)
| OtherError (cls : string).

(** What a function of the module hands back: [None] or an exception
    object (the handler returns the error it caught). *)
Inductive retval : Type :=
| RNone
| RError (e : exn).

(** The thread a statement runs on. *)
Inductive context : Type :=
| MainThread
| ThreadNamed (name : string).

Inductive loglevel : Type := DEBUG | INFO | ERROR.

(** Calls that leave the module, in the order they are made. *)
Inductive call : Type :=
| Log (level : loglevel) (msg : string)
| QueryCredentials (path : string)
| NewCryptoStream (key secret : string)
| SubscribeQuotes (symbol : string)
| ClientRun
| ThreadStart (name : string) (daemon : bool)
| SocketNew (sock : nat)
| SocketConnect (sock : nat) (host : string) (port : Z)
| SocketSendall (sock : nat) (payload : list Byte.byte)
| SocketClose (sock : nat)
| Sleep (seconds : Z).

Definition event : Type := context * call.

(** [datetime]: an aware instant, as the microseconds since the epoch. *)
Record datetime : Type := { micros : Z }.

(** [datetime.timestamp(t)]: the difference to the epoch in seconds,
    [microseconds / 10**6] as a float. *)
Definition datetime_timestamp (t : datetime) : float :=
match micros t with
| Z0 => S754_zero false
| Zpos p => of_ratio false p 1000000
| Zneg p => of_ratio true p 1000000
end.

(** A quote event of the stream, with the attributes the handler reads. *)
Record quote : Type := {
  symbol : string;
  timestamp : datetime;
  ask_price : float;
  ask_size : float;
  bid_price : float;
  bid_size : float
}.

(** The stream client: its keys and the symbols with a quote handler. *)
Record cryptostream : Type := {
  api_key : string;
  secret_key : string;
  quote_handlers : list string
}.

(** The instance attributes of [liveDataServer]. *)
Record liveDataServer : Type := {
  keyfile : string;
  database : string;
  host : string;
  port : Z;
  data : pydict;
  credentials : option (string * string);
  client : option cryptostream
}.

(** A socket object: the [_closed] flag of the Python object and
    whether the connection behind it is still held. *)
Record socket_state : Type := {
  closed_flag : bool;
  held : bool
}.

(** The answers of the outside: the credential store, the stream (the
    frames it receives while it runs, each with its quote messages,
    and whether [run] ever comes back), and the peer of each socket,
    in order of creation. *)
Record environment : Type := {
  credential_store : string -> exn + (string * string);
  feed : list (list quote);
  run_returns : bool;
  connect_answer : nat -> option exn;
  sendall_answer : nat -> option exn
}.

Record world : Type := {
  env : environment;
  current : context;
  self : liveDataServer;
  next_sock : nat;
  sock : nat -> socket_state;
  trace : list event
}.

(** How a block of statements ends. *)
Inductive result (A : Type) : Type :=
| Normal (a : A)
| Returned (v : retval)
| Raised (e : exn)
| Hangs.

Arguments Normal {A} a.
Arguments Returned {A} v.
Arguments Raised {A} e.
Arguments Hangs {A}.

Definition M (A : Type) : Type := world -> result A * world.

Definition ret {A : Type} (a : A) : M A := fun w => (Normal a, w).

Definition bind {A B : Type} (m : M A) (k : A -> M B) : M B :=
fun w =>
  match m w with
  | (Normal a, w1) => k a w1
  | (Returned v, w1) => (Returned v, w1)
  | (Raised e, w1) => (Raised e, w1)
  | (Hangs, w1) => (Hangs, w1)
  end.

Declare Scope py_scope.
Delimit Scope py_scope with py.
Notation "x <- m ;; k" := (bind m (fun x => k))
  (at level 61, m at next level, right associativity) : py_scope.
Notation "m ;; k" := (bind m (fun _ => k))
  (at level 61, right associativity) : py_scope.
Open Scope py_scope.

(** [return v] and [raise e]. *)
Definition return_ {A : Type} (v : retval) : M A := fun w => (Returned v, w).
Definition raise {A : Type} (e : exn) : M A := fun w => (Raised e, w).

(** [try: body / except Exception as error: handler error]. *)
Definition try_except {A : Type} (body : M A) (handler : exn -> M A) : M A :=
fun w =>
  match body w with
  | (Raised e, w1) => handler e w1
  | other => other
  end.

(** [try: body / finally: fin]: [fin] runs however [body] ends, and the
    way [body] ended stands unless [fin] itself returns or raises. *)
Definition try_finally {A : Type} (body : M A) (fin : M unit) : M A :=
fun w =>
  match body w with
  | (Hangs, w1) => (Hangs, w1)
  | (r, w1) =>
      match fin w1 with
      | (Normal _, w2) => (r, w2)
      | (Returned v, w2) => (Returned v, w2)
      | (Raised e, w2) => (Raised e, w2)
      | (Hangs, w2) => (Hangs, w2)
      end
  end.

(** [try: body / except Exception as error: handler / finally: fin]. *)
Definition try_except_finally {A : Type}
  (body : M A) (handler : exn -> M A) (fin : M unit) : M A :=
try_finally (try_except body handler) fin.

(** [for x in xs: body x]. *)
Fixpoint for_each {A : Type} (xs : list A) (body : A -> M unit) : M unit :=
match xs with
| [] => ret tt
| x :: rest => body x ;; for_each rest body
end.

(** The outcome of calling a function whose body is [m]: falling off
    the end returns [None]. *)
Inductive outcome : Type :=
| Returns (v : retval)
| Raises (e : exn).

Definition invoke (m : M unit) : M outcome :=
fun w =>
  match m w with
  | (Normal _, w1) => (Normal (Returns RNone), w1)
  | (Returned v, w1) => (Normal (Returns v), w1)
  | (Raised e, w1) => (Normal (Raises e), w1)
  | (Hangs, w1) => (Hangs, w1)
  end.

(** *** State of the world *)

Definition emit (c : call) : M unit :=
fun w =>
  (Normal tt,
   {| env := env w; current := current w; self := self w;
      next_sock := next_sock w; sock := sock w;
      trace := trace w ++ [(current w, c)] |}).

Definition get_self : M liveDataServer := fun w => (Normal (self w), w).

Definition set_self (s : liveDataServer) : M unit :=
fun w =>
  (Normal tt,
   {| env := env w; current := current w; self := s;
      next_sock := next_sock w; sock := sock w; trace := trace w |}).

Definition get_env : M environment := fun w => (Normal (env w), w).

Definition set_sock (id : nat) (s : socket_state) : M unit :=
fun w =>
  (Normal tt,
   {| env := env w; current := current w; self := self w;
      next_sock := next_sock w;
      sock := fun i => if Nat.eqb i id then s else sock w i;
      trace := trace w |}).

Definition get_sock (id : nat) : M socket_state :=
fun w => (Normal (sock w id), w).

(** Run [m] on the thread [c], then come back to the current one. *)
Definition on_thread (c : context) (m : M unit) : M unit :=
fun w =>
  let w0 := {| env := env w; current := c; self := self w;
               next_sock := next_sock w; sock := sock w; trace := trace w |} in
  let '(_, w1) := m w0 in
  (Normal tt,
   {| env := env w1; current := current w; self := self w1;
      next_sock := next_sock w1; sock := sock w1; trace := trace w1 |}).

End Runtime.

(** ** The libraries the module imports *)

Module Libraries.
Import PyFloat PyJson Runtime.

(** [from logging import info, debug]: a record is handed to the root
    logger.  The text recorded is the literal part of the message. *)
Definition logging_info (msg : string) : M unit := emit (Log INFO msg).
Definition logging_debug (msg : string) : M unit := emit (Log DEBUG msg).
Definition logging_exception (msg : string) : M unit := emit (Log ERROR msg).

(** [from json import dumps as serialize]. *)
Definition serialize (v : pyval) : string := dumps v.

(** [bytes(s, encoding="utf-8")]. *)
Definition bytes (s : string) : list Byte.byte := utf8_encode s.

(** [time.sleep]. *)
Definition sleep (seconds : Z) : M unit := emit (Sleep seconds).

(** [str.upper] on the code points U+0000 to U+00FF: the letters a to
    z, and the letters U+00E0 to U+00FE but the division sign, have
    their capital 32 places before them; the sharp s becomes [SS].
    The capitals of U+00B5 and U+00FF (U+039C and U+0178) are outside
    this range: [upper_in_range] tells the texts that hold neither,
    the texts on which [upper] is [str.upper]. *)
Definition upper_char (c : ascii) : string :=
let n := N_of_ascii c in
if ((97 <=? n) && (n <=? 122))%N then String (ascii_of_N (n - 32)) EmptyString
else if (n =? 223)%N then "SS"%string
else if ((224 <=? n) && (n <=? 254) && negb (n =? 247))%N
then String (ascii_of_N (n - 32)) EmptyString
else String c EmptyString.

Fixpoint upper (s : string) : string :=
match s with
| EmptyString => EmptyString
| String c rest => (upper_char c ++ upper rest)%string
end.

Definition upper_in_range (s : string) : bool :=
forallb (fun c => negb ((N_of_ascii c =? 181) || (N_of_ascii c =? 255))%N)
  (list_ascii_of_string s).

(** *** socket *)

(** [socket(AF_INET, SOCK_STREAM)]: a new socket object. *)
Definition socket : M nat :=
fun w =>
  let id := next_sock w in
  (Normal id,
   {| env := env w; current := current w; self := self w;
      next_sock := S id;
      sock := fun i => if Nat.eqb i id
                       then {| closed_flag := false; held := true |}
                       else sock w i;
      trace := trace w ++ [(current w, SocketNew id)] |}).

(** [server.connect((host, port))]: raises what the peer answers. *)
Definition connect (id : nat) (h : string) (p : Z) : M unit :=
emit (SocketConnect id h p) ;;
e <- get_env ;;
match connect_answer e id with
| Some x => raise x
| None => ret tt
end.

(** [server.sendall(payload)]. *)
Definition sendall (id : nat) (payload : list Byte.byte) : M unit :=
emit (SocketSendall id payload) ;;
e <- get_env ;;
match sendall_answer e id with
| Some x => raise x
| None => ret tt
end.

(** [server.close()]: sets [_closed] and releases the connection. *)
Definition close (id : nat) : M unit :=
emit (SocketClose id) ;;
set_sock id {| closed_flag := true; held := false |}.

(** [socket.__exit__]: closes unless [_closed] is already set. *)
Definition socket_exit (id : nat) : M unit :=
s <- get_sock id ;;
if closed_flag s then ret tt else close id.

(** [with socket(AF_INET, SOCK_STREAM) as server: body server]. *)
Definition with_socket {A : Type} (body : nat -> M A) : M A :=
id <- socket ;;
try_finally (body id) (socket_exit id).

(** *** The credential store and the stream client *)

(** [SQL.databaseInterface().queryCredentials(path)]. *)
Definition queryCredentials (path : string) : M (string * string) :=
emit (QueryCredentials path) ;;
e <- get_env ;;
match credential_store e path with
| inl x => raise x
| inr c => ret c
end.

(** [CryptoStream(key, secret)]. *)
Definition CryptoStream (key secret : string) : M cryptostream :=
emit (NewCryptoStream key secret) ;;
ret {| api_key := key; secret_key := secret; quote_handlers := [] |}.

Definition add_handler (s : string) (l : list string) : list string :=
if existsb (String.eqb s) l then l else l ++ [s].

(** [self.client.subscribe_quotes(handler, symbol)]: the client keeps
    one handler per symbol. *)
Definition subscribe_quotes (sym : string) : M unit :=
emit (SubscribeQuotes sym) ;;
s <- get_self ;;
match client s with
| Some c =>
    set_self
      {| keyfile := keyfile s; database := database s; host := host s;
         port := port s; data := data s; credentials := credentials s;
         client := Some {| api_key := api_key c; secret_key := secret_key c;
                           quote_handlers := add_handler sym (quote_handlers c) |} |}
| None => raise (OtherError "AttributeError")
end.

(** A call that does not come back. *)
Definition hang {A : Type} : M A := fun w => (Hangs, w).

(** What an expression can evaluate to where a thread target is
    expected. *)
Inductive pyobject : Type :=
| ONone
| OCallable (body : M unit).

(** The client has a handler for a quote message: the one subscribed
    for its symbol, or else the one subscribed for [*]. *)
Definition wanted (handlers : list string) (q : quote) : bool :=
existsb (String.eqb (symbol q)) handlers || existsb (String.eqb "*") handlers.

(** The messages of one frame: each one that has a handler is handed
    to it, in order; when a call of the handler raises, the exception
    leaves the loop over the messages, and the rest of the frame is
    not handed over. *)
Fixpoint dispatch_frame (handlers : list string) (handler : quote -> M unit)
  (msgs : list quote) : M unit :=
match msgs with
| [] => ret tt
| q :: rest =>
    if wanted handlers q then
      o <- invoke (handler q) ;;
      match o with
      | Returns _ => dispatch_frame handlers handler rest
      | Raises _ => ret tt
      end
    else dispatch_frame handlers handler rest
end.

(** [self.client.run()]: the stream's loop, on the thread that calls
    it.  It reads frame after frame and dispatches the messages of
    each; the exception of a handler call is caught (and logged by the
    client's own logger, which is no call of the module), and the loop
    goes on with the next frame.  It comes back ([None]) only when the
    stream is stopped. *)
Definition client_run (handler : quote -> M unit) : M pyobject :=
s <- get_self ;;
match client s with
| None => raise (OtherError "AttributeError")
| Some c =>
    emit ClientRun ;;
    e <- get_env ;;
    for_each (feed e) (dispatch_frame (quote_handlers c) handler) ;;
    if run_returns e then ret ONone else hang
end.

(** [Thread(daemon=d, name=n, target=t).start()]: the new thread calls
    its target, if it has one. *)
Definition Thread_start (daemon : bool) (name : string) (target : pyobject)
  : M unit :=
emit (ThreadStart name daemon) ;;
match target with
| ONone => ret tt
| OCallable body => on_thread (ThreadNamed name) body
end.

End Libraries.

(** ** The module [liveData] *)

Module LiveData.
Import PyFloat PyJson Runtime Libraries.

(** The names the module binds at top level, by its [import]
    statements and its [class] statement. *)
Definition module_globals : list string :=
[ "socket"; "AF_INET"; "SOCK_STREAM"; "ArgumentParser"; "serialize";
  "sleep"; "datetime"; "Thread"; "cryptogram"; "SQL"; "CryptoStream";
  "StocksStream"; "basicConfig"; "getLogger"; "INFO"; "DEBUG";
  "information"; "debugging"; "liveDataServer" ]%string.

(** The builtins the module refers to. *)
Definition builtin_names : list string :=
[ "str"; "bytes"; "int"; "list"; "Exception" ]%string.

Definition bound (name : string) : bool :=
existsb (String.eqb name) (module_globals ++ builtin_names).

(** A call [name(...)]: the name is looked up first, and a name that
    is bound nowhere raises [NameError]. *)
Definition call_global {A : Type} (name : string) (body : M A) : M A :=
if bound name then body else raise (NameError name).

(** [from logging import info as information], [debug as debugging]. *)
Definition information (msg : string) : M unit :=
call_global "information" (logging_info msg).

Definition debugging (msg : string) : M unit :=
call_global "debugging" (logging_debug msg).

(** [exception(...)]: the module calls this name in its two [except]
    clauses. *)
Definition exception (msg : string) : M unit :=
call_global "exception" (logging_exception msg).

(** The entry the handler writes for one event. *)
Definition entry (q : quote) : pyval :=
PDict [ ("name", PStr (symbol q));
        ("time", PFloat (datetime_timestamp (timestamp q)));
        ("ask price", PFloat (ask_price q));
        ("ask size", PFloat (ask_size q));
        ("bid price", PFloat (bid_price q));
        ("bid size", PFloat (bid_size q)) ]%string.

(** [self.data[key] = value]. *)
Definition data_setitem (key : string) (value : pyval) : M unit :=
s <- get_self ;;
set_self
  {| keyfile := keyfile s; database := database s; host := host s;
     port := port s; data := dict_set (data s) key value;
     credentials := credentials s; client := client s |}.

(** [streamDataHandler(self, data)]. *)
Definition streamDataHandler (q : quote) : M unit :=
information ("Recieved live auction data for: " ++ symbol q) ;;
debugging "Data Recieved:" ;;
debugging "Updating data packet contents." ;;
data_setitem "Live Market Data" (PDict [ (symbol q, entry q) ]) ;;
debugging "Connecting to the api hub." ;;
with_socket (fun server =>
  debugging "Attempting connection." ;;
  try_except
    (s <- get_self ;;
     connect server (host s) (port s) ;;
     debugging "Connection established.")
    (fun error =>
       exception "There was an issue connecting to the api hub;" ;;
       return_ (RError error)) ;;
  debugging "Attempting upload to hub." ;;
  try_except_finally
    (s <- get_self ;;
     sendall server (bytes (serialize (PDict (data s)))) ;;
     debugging "Upload complete.")
    (fun error =>
       exception "There was an issue uploading data to the api hub;" ;;
       return_ (RError error))
    (close server ;;
     sleep 1)).

(** The subscription loop of [__init__]:
    [for asset in symbols: self.client.subscribe_quotes(handler, str(asset.upper()))]. *)
Definition subscribe_symbols (symbols : list string) : M unit :=
for_each symbols (fun asset => subscribe_quotes (upper asset)).

(** [liveDataServer.__init__(self, keyfile, database, symbols, host, port)]. *)
Definition __init__ (keyfile_arg database_arg : string)
  (symbols : list string) (host_arg : string) (port_arg : Z) : M unit :=
information "Initializing auction data collection daemon." ;;
debugging "Establishing server constants." ;;
set_self {| keyfile := keyfile_arg; database := database_arg;
            host := host_arg; port := port_arg; data := [];
            credentials := None; client := None |} ;;
cred <- queryCredentials "/server/database/admin/admin.db" ;;
s <- get_self ;;
set_self {| keyfile := keyfile s; database := database s; host := host s;
            port := port s; data := data s;
            credentials := Some cred; client := client s |} ;;
c <- CryptoStream (fst cred) (snd cred) ;;
s <- get_self ;;
set_self {| keyfile := keyfile s; database := database s; host := host s;
            port := port s; data := data s;
            credentials := credentials s; client := Some c |} ;;
debugging "Subscribing to asset pairs." ;;
subscribe_symbols symbols ;;
debugging "Begin runtime execution." ;;
target <- client_run streamDataHandler ;;
Thread_start true "CryptoClient" target.

(** The default values of the parameters of [__init__]. *)
Definition default_keyfile : string := "/server/credentials/admin.key".
Definition default_database : string := "/server/database/admin.db".
Definition default_symbols : list string := [ "BTC/USD"%string ].
Definition default_host : string := "127.0.0.1".
Definition default_port : Z := 65535.

(** The process before the module runs: nothing set, nothing called. *)
Definition blank : liveDataServer :=
{| keyfile := EmptyString; database := EmptyString; host := EmptyString;
   port := 0; data := []; credentials := None; client := None |}.

Definition boot (e : environment) : world :=
{| env := e; current := MainThread; self := blank; next_sock := O;
   sock := fun _ => {| closed_flag := true; held := false |};
   trace := [] |}.

(** The stream delivering the events [qs] to the handler, one call per
    event. *)
Definition deliver (qs : list quote) : M unit :=
for_each qs (fun q => _ <- invoke (streamDataHandler q) ;; ret tt).

(** [read()] of the store: the mapping under the top-level key, and
    the entry of one symbol in it. *)
Definition read (w : world) : pydict := data (self w).

Definition snapshot_lookup (w : world) (sym : string) : option pyval :=
match dict_get (read w) "Live Market Data" with
| Some (PDict d) => dict_get d sym
| _ => None
end.

(** The events a computation added to the trace. *)
Definition events_since (w w' : world) : list event :=
skipn (List.length (trace w)) (trace w').

(** *** Reading a trace *)

(** The sockets created, and the sockets closed, in order. *)
Definition opened (es : list event) : list nat :=
flat_map (fun e => match snd e with SocketNew id => [id] | _ => [] end) es.

Definition closed (es : list event) : list nat :=
flat_map (fun e => match snd e with SocketClose id => [id] | _ => [] end) es.

(** The pacing waits, the documents written, the credential stores
    consulted, the symbols subscribed, and the threads that ran the
    stream's loop. *)
Definition sleeps (es : list event) : list Z :=
flat_map (fun e => match snd e with Sleep n => [n] | _ => [] end) es.

Definition payloads (es : list event) : list (list Byte.byte) :=
flat_map (fun e => match snd e with SocketSendall _ p => [p] | _ => [] end) es.

Definition queried (es : list event) : list string :=
flat_map (fun e => match snd e with QueryCredentials p => [p] | _ => [] end) es.

Definition subscribed (es : list event) : list string :=
flat_map (fun e => match snd e with SubscribeQuotes s => [s] | _ => [] end) es.

Definition loop_threads (es : list event) : list context :=
flat_map (fun e => match snd e with ClientRun => [fst e] | _ => [] end) es.

(** The document of one event: the value handed to [serialize]. *)
Definition wire_document (q : quote) : pyval :=
PDict [ ("Live Market Data"%string, PDict [ (symbol q, entry q) ]) ].

(** The last event of [qs] for the symbol [sym]. *)
Definition last_merged (sym : string) (qs : list quote) : option quote :=
find (fun q => String.eqb (symbol q) sym) (rev qs).

(** The shape the specification asks of a subscribed identifier: a
    base and a quote currency, both non-empty, around one slash.  The
    module has no such check; the predicate follows the words of the
    specification and only serves to say what it calls malformed. *)
Definition spec_base_quote_shape (s : string) : bool :=
let cs := list_ascii_of_string s in
let is_slash := fun c => (N_of_ascii c =? 47)%N in
match filter is_slash cs with
| [_] =>
    negb (match cs with c :: _ => is_slash c | [] => true end) &&
    negb (match rev cs with c :: _ => is_slash c | [] => true end)
| _ => false
end.

Definition spec_malformed_collection (symbols : list string) : Prop :=
symbols = [] \/ exists s, In s symbols /\ spec_base_quote_shape s = false.

(** *** What one call of the handler leaves behind

    [attempt q w w' es] gathers what is proved below of one call of the
    handler on the event [q]: from the world [w] it ends in [w'] after
    the calls [es]. *)

Definition closed_socket : socket_state :=
{| closed_flag := true; held := false |}.

Definition merge (q : quote) (d : pydict) : pydict :=
dict_set d "Live Market Data" (PDict [ (symbol q, entry q) ]).

Record attempt (q : quote) (w w' : world) (es : list event) : Prop := {
  att_trace : trace w' = trace w ++ es;
  att_env : env w' = env w;
  att_current : current w' = current w;
  att_next_sock : next_sock w' = S (next_sock w);
  att_data : data (self w') = merge q (data (self w));
  att_host : host (self w') = host (self w);
  att_port : port (self w') = port (self w);
  att_sock : forall i,
      sock w' i = if Nat.eqb i (next_sock w) then closed_socket else sock w i;
  att_context : Forall (fun e => fst e = current w) es;
  att_opened : opened es = [ next_sock w ];
  att_closed : closed es = [ next_sock w ];
  att_queried : queried es = [];
  att_subscribed : subscribed es = [];
  att_loop_threads : loop_threads es = [];
  att_sleeps :
    sleeps es = match connect_answer (env w) (next_sock w) with
                | Some _ => []
                | None => [ 1 ]
                end;
  att_payloads :
    payloads es = match connect_answer (env w) (next_sock w) with
                  | Some _ => []
                  | None => [ bytes (serialize (PDict (merge q (data (self w))))) ]
                  end
}.

(** How the call ends, by the answers of the peer (proved below, as
    [streamDataHandler_result]). *)
Definition handler_result (w : world) : result unit :=
match connect_answer (env w) (next_sock w) with
| Some _ => Raised (NameError "exception")
| None =>
    match sendall_answer (env w) (next_sock w) with
    | Some _ => Raised (NameError "exception")
    | None => Normal tt
    end
end.

(** The call of the handler that gets the socket [id] raises. *)
Definition attempt_fails (e : environment) (id : nat) : bool :=
match connect_answer e id with
| Some _ => true
| None =>
    match sendall_answer e id with
    | Some _ => true
    | None => false
    end
end.

(** The messages of a frame that are handed to the handler, the first
    call getting the socket [id] (proved below to be what
    [dispatch_frame] does). *)
Fixpoint frame_handled (e : environment) (handlers : list string) (id : nat)
  (msgs : list quote) : list quote :=
match msgs with
| [] => []
| q :: rest =>
    if wanted handlers q
    then q :: (if attempt_fails e id then []
               else frame_handled e handlers (S id) rest)
    else frame_handled e handlers id rest
end.

(** The same over the frames of a stream. *)
Fixpoint handled (e : environment) (handlers : list string) (id : nat)
  (frames : list (list quote)) : list quote :=
match frames with
| [] => []
| f :: rest =>
    let h := frame_handled e handlers id f in
    h ++ handled e handlers (id + List.length h) rest
end.

(** The connect step or the send step of the call started in [w]
    fails. *)
Definition transport_failure (w : world) : Prop :=
(exists e, connect_answer (env w) (next_sock w) = Some e) \/
(connect_answer (env w) (next_sock w) = None /\
 exists e, sendall_answer (env w) (next_sock w) = Some e).

(** The store is empty or holds the one top-level key. *)
Definition store_shape (d : pydict) : Prop :=
d = [] \/ exists v, d = [ ("Live Market Data"%string, v) ].

(** *** Sample events and environments *)

(** The quote of the round-trip property: [BTC/USD], ask 50000.5 for
    0.1, bid 50000.0 for 0.2, at 1700000000 seconds after the epoch.
    The floats are the ones Python reads from these literals. *)
Definition btc_quote : quote :=
{| symbol := "BTC/USD";
   timestamp := {| micros := 1700000000000000 |};
   ask_price := of_decimal false 500005 (-1);
   ask_size := of_decimal false 1 (-1);
   bid_price := of_decimal false 500000 (-1);
   bid_size := of_decimal false 2 (-1) |}.

Definition eth_quote : quote :=
{| symbol := "ETH/USD";
   timestamp := {| micros := 1700000001500000 |};
   ask_price := of_decimal false 200025 (-2);
   ask_size := of_decimal false 15 (-1);
   bid_price := of_decimal false 2000 0;
   bid_size := of_decimal false 3 0 |}.

(** A credential store that holds one pair of keys at every path. *)
Definition any_store (path : string) : exn + (string * string) :=
inr ("key"%string, "secret"%string).

(** The stream receiving the events one per frame. *)
Definition one_by_one (events : list quote) : list (list quote) :=
map (fun q => [ q ]) events.

(** A peer that accepts every connection and reads what is sent. *)
Definition listening (events : list quote) (stops : bool) : environment :=
{| credential_store := any_store; feed := one_by_one events;
   run_returns := stops;
   connect_answer := fun _ => None; sendall_answer := fun _ => None |}.

(** A closed port: every connection is refused (errno 111). *)
Definition refusing (events : list quote) (stops : bool) : environment :=
{| credential_store := any_store; feed := one_by_one events;
   run_returns := stops;
   connect_answer := fun _ => Some (OSError 111);
   sendall_answer := fun _ => None |}.

(** A peer that accepts and then drops the connection (errno 32). *)
Definition dropping (events : list quote) (stops : bool) : environment :=
{| credential_store := any_store; feed := one_by_one events;
   run_returns := stops;
   connect_answer := fun _ => None;
   sendall_answer := fun _ => Some (OSError 32) |}.

(** A server object as [__init__] leaves it before the stream runs. *)
Definition fresh_server : liveDataServer :=
{| keyfile := default_keyfile; database := default_database;
   host := default_host; port := default_port; data := [];
   credentials := Some ("key"%string, "secret"%string);
   client := Some {| api_key := "key"; secret_key := "secret";
                     quote_handlers := [] |} |}.

Definition started (e : environment) : world :=
{| env := e; current := MainThread; self := fresh_server; next_sock := O;
   sock := fun _ => closed_socket; trace := [] |}.

End LiveData.

(** ** The script: the block under [if __name__ == "__main__"] *)

Module Cli.
Import PyFloat PyJson Runtime Libraries LiveData.

(** The value of [arguments.port]: the default of the option is the
    [int] 65535, a value given on the command line is a [str]. *)
Inductive port_value : Type :=
| PortInt (z : Z)
| PortStr (s : string).

(** The namespace [parse_args()] returns, with the four options the
    parser declares. *)
Record namespace : Type := {
  trade_pairs : list string;
  logfile : string;
  port : port_value;
  host : string
}.

(** The defaults of the four [add_argument] calls. *)
Definition default_arguments : namespace :=
{| trade_pairs := [ "BTC/USD"%string ];
   logfile := "/server/logs/liveData.log";
   port := PortInt 65535;
   host := "127.0.0.1" |}.

(** White space [int] strips from both ends of a [str]. *)
Definition int_space (c : ascii) : bool :=
let n := N_of_ascii c in
(((9 <=? n) && (n <=? 13)) || (n =? 32) || (n =? 133) || (n =? 160))%N.

Fixpoint lstrip (cs : list ascii) : list ascii :=
match cs with
| c :: rest => if int_space c then lstrip rest else cs
| [] => []
end.

Definition strip (cs : list ascii) : list ascii :=
rev (lstrip (rev (lstrip cs))).

(** Decimal digits, with single underscores allowed between two
    digits. *)
Fixpoint digits_value (cs : list ascii) (acc : Z) (after_digit : bool)
  : option Z :=
match cs with
| [] => if after_digit then Some acc else None
| c :: rest =>
    match digit_val c with
    | Some d => digits_value rest (10 * acc + d) true
    | None =>
        if (N_of_ascii c =? 95)%N && after_digit
        then digits_value rest acc false
        else None
    end
end.

(** The number of digits [int] converts at most
    ([sys.get_int_max_str_digits()]). *)
Definition max_str_digits : Z := 4300.

Definition is_digit (c : ascii) : bool :=
match digit_val c with
| Some _ => true
| None => false
end.

(** [int(s)] for a [str]: [ValueError] unless the text is an optional
    sign and decimal digits, white space around them apart, and the
    digits are no more than the limit. *)
Definition int_of_str (s : string) : exn + Z :=
let cs := strip (list_ascii_of_string s) in
let '(neg, ds) :=
  match cs with
  | c :: rest =>
      if (N_of_ascii c =? 45)%N then (true, rest)
      else if (N_of_ascii c =? 43)%N then (false, rest)
      else (false, cs)
  | [] => (false, cs)
  end in
match digits_value ds 0 false with
| Some v =>
    if max_str_digits <? Z.of_nat (List.length (filter is_digit ds))
    then inl (OtherError "ValueError")
    else inr (if neg then - v else v)
| None => inl (OtherError "ValueError")
end.

(** [int(arguments.port)]. *)
Definition int (v : port_value) : exn + Z :=
match v with
| PortInt z => inr z
| PortStr s => int_of_str s
end.


(** The process: what opening a file for appending raises, if anything
    (the answer of the file system), the root logger, configured or
    not, and the world of the module. *)
Record process : Type := {
  open_append : string -> option exn;
  root_logger : option (string * loglevel);
  machine : world
}.

(** [basicConfig(filename=f, level=l)]: does nothing when the root
    logger is configured already; otherwise it opens the file at once,
    for the handler it adds, and raises what opening raises. *)
Definition basicConfig (f : string) (l : loglevel) (p : process)
  : result unit * process :=
match root_logger p with
| Some _ => (Normal tt, p)
| None =>
    match open_append p f with
    | Some x => (Raised x, p)
    | None =>
        (Normal tt,
         {| open_append := open_append p; root_logger := Some (f, l);
            machine := machine p |})
    end
end.

(** The statements after [parse_args()]:
    [basicConfig(filename=arguments.logfile, level=INFO)] and
    [liveDataServer(symbols=arguments.trade_pairs, port=int(arguments.port))]. *)
Definition main (arguments : namespace) (p : process)
  : result unit * process :=
match basicConfig (logfile arguments) INFO p with
| (Normal _, p1) =>
    match int (port arguments) with
    | inl x => (Raised x, p1)
    | inr n =>
        let '(r, w) :=
          __init__ default_keyfile default_database (trade_pairs arguments)
            default_host n (machine p1) in
        (r, {| open_append := open_append p1; root_logger := root_logger p1;
               machine := w |})
    end
| (Returned v, p1) => (Returned v, p1)
| (Raised x, p1) => (Raised x, p1)
| (Hangs, p1) => (Hangs, p1)
end.

(** The process when the script starts. *)
Definition start (e : environment) (fs : string -> option exn) : process :=
{| open_append := fs; root_logger := None; machine := boot e |}.

(** A file system on which every file can be opened, and one on which
    the directory of the log file is missing (errno 2). *)
Definition writable (path : string) : option exn := None.

(** The numeric values of the logging levels. *)
Definition level_no (l : loglevel) : Z :=
match l with
| DEBUG => 10
| INFO => 20
| ERROR => 40
end.

(** The records handed to the logging functions, in order. *)
Definition log_records (es : list event) : list (loglevel * string) :=
flat_map (fun e => match snd e with Log l m => [ (l, m) ] | _ => [] end) es.

(** The records of the module's own logging calls that the root logger
    hands to its file: those at or above its level; none when
    [basicConfig] did not configure it.  The file also receives the
    records other loggers of the process send to the root logger (the
    stream client logs the exception of a handler call); these are no
    calls of the module and not in its trace. *)
Definition own_records (p : process) : list (loglevel * string) :=
match root_logger p with
| Some (_, l) =>
    filter (fun r => level_no l <=? level_no (fst r))
      (log_records (trace (machine p)))
| None => []
end.

End Cli.

(** ** Accounts of a trace *)

Module Ledger.
Import PyFloat PyJson Runtime Libraries LiveData.

(** The endpoints of the connect calls, with their sockets. *)
Definition connects (es : list event) : list (nat * string * Z) :=
flat_map
  (fun e => match snd e with SocketConnect id h p => [ (id, h, p) ] | _ => [] end)
  es.

(** The stream clients created, by their key and secret. *)
Definition clients (es : list event) : list (string * string) :=
flat_map
  (fun e => match snd e with NewCryptoStream k s => [ (k, s) ] | _ => [] end)
  es.

(** The events before the stream's loop is first run. *)
Fixpoint before_loop (es : list event) : list event :=
match es with
| [] => []
| e :: rest =>
    match snd e with
    | ClientRun => []
    | _ => e :: before_loop rest
    end
end.

(** The sockets held after an event, given those held before it. *)
Definition step_open (open : list nat) (e : event) : list nat :=
match snd e with
| SocketNew id => open ++ [ id ]
| SocketClose id => filter (fun i => negb (Nat.eqb i id)) open
| _ => open
end.

Definition open_after (open : list nat) (es : list event) : list nat :=
fold_left step_open es open.

(** The largest number of sockets held at once along the trace. *)
Fixpoint max_open (open : list nat) (es : list event) : nat :=
match es with
| [] => List.length open
| e :: rest => Nat.max (List.length open) (max_open (step_open open e) rest)
end.

(** The number of sockets held at each pacing wait. *)
Fixpoint open_at_sleeps (open : list nat) (es : list event) : list nat :=
match es with
| [] => []
| e :: rest =>
    match snd e with
    | Sleep _ => List.length open :: open_at_sleeps open rest
    | _ => open_at_sleeps (step_open open e) rest
    end
end.

(** The server object with another store. *)
Definition with_data (s : liveDataServer) (d : pydict) : liveDataServer :=
{| keyfile := keyfile s; database := database s; host := host s;
   port := port s; data := d; credentials := credentials s;
   client := client s |}.

(** The calls of one call of the handler, written out by the answers
    of the peer (proved below to be the calls of [streamDataHandler]). *)
Definition attempt_calls (q : quote) (s : liveDataServer) (id : nat)
  (conn send : option exn) : list call :=
[ Log INFO ("Recieved live auction data for: " ++ symbol q);
  Log DEBUG "Data Recieved:";
  Log DEBUG "Updating data packet contents.";
  Log DEBUG "Connecting to the api hub.";
  SocketNew id;
  Log DEBUG "Attempting connection.";
  SocketConnect id (host s) (port s) ]
++ match conn with
   | Some _ => [ SocketClose id ]
   | None =>
       [ Log DEBUG "Connection established.";
         Log DEBUG "Attempting upload to hub.";
         SocketSendall id (bytes (serialize (PDict (merge q (data s))))) ]
       ++ match send with
          | Some _ => []
          | None => [ Log DEBUG "Upload complete." ]
          end
       ++ [ SocketClose id; Sleep 1 ]
   end.

(** The calls of the handler over a sequence of events. *)
Fixpoint deliver_calls (e : environment) (s : liveDataServer) (id : nat)
  (qs : list quote) : list call :=
match qs with
| [] => []
| q :: rest =>
    attempt_calls q s id (connect_answer e id) (sendall_answer e id)
    ++ deliver_calls e (with_data s (merge q (data s))) (S id) rest
end.

(** The store after a sequence of events. *)
Definition merge_all (qs : list quote) (d : pydict) : pydict :=
fold_left (fun d q => merge q d) qs d.

(** The documents of the events whose connection is accepted, the
    sockets being numbered from [id]. *)
Fixpoint accepted_documents (e : environment) (id : nat) (qs : list quote)
  : list (list Byte.byte) :=
match qs with
| [] => []
| q :: rest =>
    match connect_answer e id with
    | Some _ => []
    | None => [ bytes (serialize (wire_document q)) ]
    end ++ accepted_documents e (S id) rest
end.

(** The number of connections accepted among [n] sockets from [id]. *)
Fixpoint accepted (e : environment) (id : nat) (n : nat) : nat :=
match n with
| O => O
| S k =>
    match connect_answer e id with
    | Some _ => O
    | None => 1%nat
    end + accepted e (S id) k
end.

(** The calls of the constructor up to the start of the stream's loop,
    when the credential store answers [cred] (proved below). *)
Definition startup_calls (cred : string * string) (symbols : list string)
  : list call :=
[ Log INFO "Initializing auction data collection daemon.";
  Log DEBUG "Establishing server constants.";
  QueryCredentials "/server/database/admin/admin.db";
  NewCryptoStream (fst cred) (snd cred);
  Log DEBUG "Subscribing to asset pairs." ]
++ map (fun a => SubscribeQuotes (upper a)) symbols
++ [ Log DEBUG "Begin runtime execution."; ClientRun ].

(** The symbols the client holds a handler for after the subscription
    loop of the constructor. *)
Definition subscriptions (symbols : list string) : list string :=
fold_left (fun l a => add_handler (upper a) l) symbols [].

(** The entry of an event, field by field as the handler writes it. *)
Definition quote_fields (q : quote) : pyval :=
PDict [ ("name"%string, PStr (symbol q));
        ("time"%string, PFloat (datetime_timestamp (timestamp q)));
        ("ask price"%string, PFloat (ask_price q));
        ("ask size"%string, PFloat (ask_size q));
        ("bid price"%string, PFloat (bid_price q));
        ("bid size"%string, PFloat (bid_size q)) ].

(** The record the handler logs on receiving an event. *)
Definition received (q : quote) : loglevel * string :=
(INFO, ("Recieved live auction data for: " ++ symbol q)%string).

(** A peer that refuses the first connection and accepts the later
    ones. *)
Definition flaky (events : list quote) (stops : bool) : environment :=
{| credential_store := any_store; feed := one_by_one events;
   run_returns := stops;
   connect_answer := fun i => if Nat.eqb i 0 then Some (OSError 111) else None;
   sendall_answer := fun _ => None |}.

(** The environment [e] with the stream receiving the frames
    [frames]. *)
Definition in_frames (frames : list (list quote)) (e : environment)
  : environment :=
{| credential_store := credential_store e; feed := frames;
   run_returns := run_returns e; connect_answer := connect_answer e;
   sendall_answer := sendall_answer e |}.

(** A server object that holds another key in its store. *)
Definition configured (e : environment) : world :=
{| env := e; current := MainThread;
   self := with_data fresh_server [ ("settings"%string, PStr "fast") ];
   next_sock := O; sock := fun _ => closed_socket; trace := [] |}.

(** A credential store that cannot be read. *)
Definition unreadable (events : list quote) (stops : bool) : environment :=
{| credential_store := fun _ => inl (OtherError "OperationalError");
   feed := one_by_one events; run_returns := stops;
   connect_answer := fun _ => None; sendall_answer := fun _ => None |}.

End Ledger.

(** * Properties *)

Module Facts.
Import PyFloat PyJson Runtime Libraries LiveData.
Open Scope string_scope.
Open Scope list_scope.

(** ** Tactics *)

(** Symbolic execution of a block on an explicit world: evaluate, and
    open the next statement when evaluation stops at it. *)
Ltac step_py :=
  first [ rewrite Nat.eqb_refl
        | progress unfold with_socket at 1
        | progress unfold try_except_finally at 1
        | progress unfold try_finally at 1
        | progress unfold try_except at 1
        | progress unfold invoke at 1
        | progress unfold bind at 1 ].

Ltac run_py_with Hc Hs :=
  repeat (cbn; first [ rewrite Hc | rewrite Hs | step_py ]); cbn.

Ltac by_answers ev n :=
  let Hc := fresh "Hc" in
  let Hs := fresh "Hs" in
  destruct (connect_answer ev n) eqn:Hc;
    [| destruct (sendall_answer ev n) eqn:Hs ];
  unfold streamDataHandler; run_py_with Hc Hs.

(** Evaluation of the statement at the head of an equation. *)
Ltac head_step E :=
  match type of E with
  | bind _ _ _ = _ => unfold bind at 1 in E
  | (match bind _ _ _ with _ => _ end) = _ => unfold bind at 1 in E
  end.

Ltac run_head E := repeat (cbn in E; head_step E); cbn in E.

(** ** Traces *)

Lemma events_since_app (w w' : world) (es : list event) :
  trace w' = trace w ++ es -> events_since w w' = es.
Proof.
  unfold events_since. intros ->.
  rewrite skipn_app, skipn_all, Nat.sub_diag. reflexivity.
Qed.

Lemma opened_app (a b : list event) : opened (a ++ b) = opened a ++ opened b.
Proof. apply flat_map_app. Qed.

Lemma closed_app (a b : list event) : closed (a ++ b) = closed a ++ closed b.
Proof. apply flat_map_app. Qed.

Lemma sleeps_app (a b : list event) : sleeps (a ++ b) = sleeps a ++ sleeps b.
Proof. apply flat_map_app. Qed.

Lemma payloads_app (a b : list event) :
  payloads (a ++ b) = payloads a ++ payloads b.
Proof. apply flat_map_app. Qed.

Lemma queried_app (a b : list event) :
  queried (a ++ b) = queried a ++ queried b.
Proof. apply flat_map_app. Qed.

Lemma subscribed_app (a b : list event) :
  subscribed (a ++ b) = subscribed a ++ subscribed b.
Proof. apply flat_map_app. Qed.

Lemma loop_threads_app (a b : list event) :
  loop_threads (a ++ b) = loop_threads a ++ loop_threads b.
Proof. apply flat_map_app. Qed.

Create Rewrite HintDb observe.

#[export] Hint Rewrite opened_app closed_app sleeps_app payloads_app
  queried_app subscribed_app loop_threads_app : observe.

(** ** Dictionaries *)

Lemma dict_get_set_same (d : pydict) (k : string) (v : pyval) :
  dict_get (dict_set d k v) k = Some v.
Proof.
  induction d as [|[k' v'] d IH]; simpl.
  - now rewrite String.eqb_refl.
  - destruct (String.eqb k k') eqn:E; simpl; rewrite ?E, ?String.eqb_refl; auto.
Qed.

(** ** One call of the handler *)

(** Evaluation stops at the serializer, at the store and at the text of
    a message; the lemmas below do not look into them. *)
#[local] Arguments dumps : simpl never.
#[local] Arguments utf8_encode : simpl never.
#[local] Arguments String.append : simpl never.
#[local] Arguments dict_set : simpl never.
#[local] Arguments events_since : simpl never.

Lemma streamDataHandler_result (q : quote) (w : world) :
  fst (streamDataHandler q w) = handler_result w.
Proof.
  unfold handler_result. destruct w as [ev c s n sk t]. cbn.
  by_answers ev n; reflexivity.
Qed.

Lemma streamDataHandler_attempt (q : quote) (w : world) :
  exists es, attempt q w (snd (streamDataHandler q w)) es.
Proof.
  destruct w as [ev c s n sk t].
  by_answers ev n; rewrite <- ?app_assoc; cbn;
    eexists; (split; cbn; rewrite ?Hc; try reflexivity);
    try (intros i; destruct (Nat.eqb i n); reflexivity);
    repeat constructor.
Qed.

(** ** The stream delivering events *)

Lemma deliver_nil (w : world) : deliver [] w = (Normal tt, w).
Proof. reflexivity. Qed.

Lemma deliver_cons (q : quote) (qs : list quote) (w : world) :
  deliver (q :: qs) w = deliver qs (snd (streamDataHandler q w)).
Proof.
  unfold deliver. cbn [for_each]. unfold bind at 1 2. unfold invoke.
  pose proof (streamDataHandler_result q w) as Hr.
  destruct (streamDataHandler q w) as [r w1]. cbn in Hr |- *. subst r.
  unfold handler_result.
  destruct (connect_answer (env w) (next_sock w));
    [| destruct (sendall_answer (env w) (next_sock w)) ]; reflexivity.
Qed.

Lemma deliver_never_hangs (qs : list quote) :
  forall w, fst (deliver qs w) = Normal tt.
Proof.
  induction qs as [|q qs IH]; intros w.
  - reflexivity.
  - rewrite deliver_cons. apply IH.
Qed.

Lemma deliver_app (qs qs' : list quote) :
  forall w, deliver (qs ++ qs') w = deliver qs' (snd (deliver qs w)).
Proof.
  induction qs as [|q qs IH]; intros w.
  - reflexivity.
  - cbn [app]. rewrite !deliver_cons. apply IH.
Qed.

Lemma deliver_snoc (qs : list quote) (q : quote) (w : world) :
  deliver (qs ++ [ q ]) w
  = (Normal tt, snd (streamDataHandler q (snd (deliver qs w)))).
Proof. rewrite deliver_app, deliver_cons, deliver_nil. reflexivity. Qed.

Lemma deliver_snoc_world (qs : list quote) (q : quote) (w : world) :
  snd (deliver (qs ++ [ q ]) w)
  = snd (streamDataHandler q (snd (deliver qs w))).
Proof.
  rewrite deliver_snoc.
  destruct (streamDataHandler q (snd (deliver qs w))) as [r w1].
  reflexivity.
Qed.

Lemma merge_store_shape (q : quote) (d : pydict) :
  store_shape d -> merge q d = [ ("Live Market Data", PDict [ (symbol q, entry q) ]) ].
Proof.
  intros [-> | [v ->]]; reflexivity.
Qed.

Lemma deliver_store_shape (qs : list quote) :
  forall w, store_shape (read w) -> store_shape (read (snd (deliver qs w))).
Proof.
  induction qs as [|q qs IH]; intros w Hw.
  - exact Hw.
  - rewrite deliver_cons. apply IH.
    destruct (streamDataHandler_attempt q w) as [es H].
    unfold read. rewrite (att_data _ _ _ _ H).
    right. eexists. apply merge_store_shape, Hw.
Qed.

(** What a run of [deliver] adds to the trace: calls of the handler
    only, on the current thread. *)
Lemma deliver_events (qs : list quote) :
  forall w, exists es,
    trace (snd (deliver qs w)) = trace w ++ es /\
    env (snd (deliver qs w)) = env w /\
    current (snd (deliver qs w)) = current w /\
    queried es = [] /\ subscribed es = [] /\ loop_threads es = [].
Proof.
  induction qs as [|q qs IH]; intros w.
  - exists []. rewrite deliver_nil. cbn [snd]. rewrite app_nil_r. now repeat split.
  - rewrite deliver_cons.
    destruct (streamDataHandler_attempt q w) as [es1 H].
    destruct (IH (snd (streamDataHandler q w))) as (es2 & Ht & He & Hc & Hq & Hs & Hl).
    exists (es1 ++ es2).
    rewrite Ht, He, Hc, (att_trace _ _ _ _ H), (att_env _ _ _ _ H),
      (att_current _ _ _ _ H), queried_app, subscribed_app, loop_threads_app,
      (att_queried _ _ _ _ H), (att_subscribed _ _ _ _ H),
      (att_loop_threads _ _ _ _ H), Hq, Hs, Hl, app_assoc.
    now repeat split.
Qed.

Lemma deliver_counts (qs : list quote) :
  forall w,
    env (snd (deliver qs w)) = env w /\
    next_sock (snd (deliver qs w)) = (next_sock w + List.length qs)%nat.
Proof.
  induction qs as [|q qs IH]; intros w.
  - rewrite deliver_nil. cbn. now rewrite Nat.add_0_r.
  - rewrite deliver_cons.
    destruct (streamDataHandler_attempt q w) as [es H].
    destruct (IH (snd (streamDataHandler q w))) as (-> & ->).
    rewrite (att_env _ _ _ _ H), (att_next_sock _ _ _ _ H).
    cbn [List.length]. now rewrite Nat.add_succ_r.
Qed.

(** The client dispatching a frame calls the handler on the messages
    [frame_handled] lists. *)
Lemma dispatch_frame_deliver (l : list string) (msgs : list quote) :
  forall w,
    dispatch_frame l streamDataHandler msgs w
    = deliver (frame_handled (env w) l (next_sock w) msgs) w.
Proof.
  induction msgs as [|q msgs IH]; intros w; cbn [dispatch_frame frame_handled].
  - reflexivity.
  - destruct (wanted l q); [ | apply IH ].
    rewrite deliver_cons. unfold bind at 1. unfold invoke.
    pose proof (streamDataHandler_result q w) as Hr.
    destruct (streamDataHandler_attempt q w) as [es H].
    pose proof (att_env _ _ _ _ H) as He.
    pose proof (att_next_sock _ _ _ _ H) as Hn. clear H.
    destruct (streamDataHandler q w) as [r w1]. cbn [fst snd] in Hr, He, Hn |- *.
    subst r. unfold handler_result, attempt_fails.
    destruct (connect_answer (env w) (next_sock w)); [ reflexivity | ].
    destruct (sendall_answer (env w) (next_sock w)); [ reflexivity | ].
    rewrite IH, He, Hn. reflexivity.
Qed.

Lemma dispatch_frames_deliver (l : list string) (frames : list (list quote)) :
  forall w,
    for_each frames (dispatch_frame l streamDataHandler) w
    = deliver (handled (env w) l (next_sock w) frames) w.
Proof.
  induction frames as [|f frames IH]; intros w; cbn [for_each handled].
  - reflexivity.
  - unfold bind at 1. rewrite dispatch_frame_deliver, deliver_app.
    set (h := frame_handled (env w) l (next_sock w) f).
    pose proof (deliver_never_hangs h w) as Hn.
    destruct (deliver_counts h w) as (He & Hs).
    destruct (deliver h w) as [r w1]. cbn [fst snd] in Hn, He, Hs |- *.
    subst r. rewrite IH, He, Hs. reflexivity.
Qed.

(** ** The constructor *)

#[local] Arguments handled : simpl never.

(** The loop of the client is the handler called on the events
    [handled] lists. *)
Lemma client_run_handled (w : world) (c : cryptostream) :
  client (self w) = Some c ->
  client_run streamDataHandler w
  = ((if run_returns (env w) then Normal ONone else Hangs),
     snd (deliver
            (handled (env w) (quote_handlers c) (next_sock w) (feed (env w)))
            (snd (emit ClientRun w)))).
Proof.
  intros Hcl. destruct w as [ev c0 s n sk t]. cbn [self] in Hcl.
  unfold client_run. unfold bind at 1. cbn [get_self self]. rewrite Hcl.
  unfold bind at 1. cbn [emit]. unfold bind at 1.
  cbn [get_env env current self next_sock sock trace].
  unfold bind at 1. rewrite dispatch_frames_deliver.
  unfold emit. cbn [snd env current self next_sock sock trace].
  match goal with |- context [deliver ?L ?W] => set (w1 := W); set (qs := L) end.
  pose proof (deliver_never_hangs qs w1) as Hn.
  destruct (deliver qs w1) as [r w2]. cbn [fst snd] in Hn |- *. subst r.
  destruct (run_returns ev); reflexivity.
Qed.

Lemma client_run_spec (w : world) (c : cryptostream) :
  client (self w) = Some c ->
  let r := client_run streamDataHandler w in
  fst r = (if run_returns (env w) then Normal ONone else Hangs) /\
  env (snd r) = env w /\ current (snd r) = current w /\
  exists es,
    trace (snd r) = trace w ++ (current w, ClientRun) :: es /\
    queried es = [] /\ subscribed es = [] /\ loop_threads es = [].
Proof.
  intros Hcl. cbv zeta. rewrite (client_run_handled w c Hcl).
  cbn [fst snd]. split; [ reflexivity | ].
  match goal with |- context [deliver ?L ?W] =>
    destruct (deliver_events L W) as (es & Ht & He & Hc & Hq & Hs & Hl)
  end.
  rewrite Ht, He, Hc. unfold emit. cbn [snd env current trace].
  rewrite <- app_assoc. repeat split. exists es. now repeat split.
Qed.

Lemma subscribe_symbols_spec (symbols : list string) :
  forall w cl, client (self w) = Some cl ->
  let r := subscribe_symbols symbols w in
  fst r = Normal tt /\
  trace (snd r)
  = trace w ++ map (fun a => (current w, SubscribeQuotes (upper a))) symbols /\
  env (snd r) = env w /\ current (snd r) = current w /\
  data (self (snd r)) = data (self w) /\
  client (self (snd r))
  = Some {| api_key := api_key cl; secret_key := secret_key cl;
            quote_handlers :=
              fold_left (fun l a => add_handler (upper a) l) symbols
                (quote_handlers cl) |}.
Proof.
  induction symbols as [|a symbols IH]; intros w cl Hcl; cbv zeta.
  - cbn. rewrite app_nil_r, Hcl. destruct cl. now repeat split.
  - destruct (subscribe_symbols (a :: symbols) w) as [r w'] eqn:E.
    unfold subscribe_symbols in E. cbn [for_each] in E.
    change (for_each symbols (fun asset => subscribe_quotes (upper asset)))
      with (subscribe_symbols symbols) in E.
    unfold bind at 1 in E.
    destruct w as [ev c s n sk t]. cbn [self] in Hcl.
    unfold subscribe_quotes in E. unfold bind at 1 in E. cbn [emit] in E.
    unfold bind at 1 in E. cbn [get_self self env current next_sock sock trace] in E.
    rewrite Hcl in E. cbn [set_self env current self next_sock sock trace] in E.
    match type of E with context [subscribe_symbols symbols ?W] => set (w1 := W) in E end.
    edestruct (IH w1) as (Hr & Ht & He & Hc & Hd & Hk); [ reflexivity | ].
    cbv zeta in Hr, Ht, He, Hc, Hd, Hk.
    rewrite E in Hr, Ht, He, Hc, Hd, Hk. cbn [fst snd] in Hr, Ht, He, Hc, Hd, Hk.
    subst w1.
    cbn [env current trace self data client api_key secret_key quote_handlers]
      in Ht, He, Hc, Hd, Hk.
    cbn [fst snd env current trace self data map fold_left].
    rewrite Ht, He, Hc, Hd, Hk, <- app_assoc. now repeat split.
Qed.

Lemma subscribe_calls_observed (c : context) (symbols : list string) :
  let es := map (fun a => (c, SubscribeQuotes (upper a))) symbols in
  subscribed es = map upper symbols /\ queried es = [] /\ loop_threads es = [].
Proof.
  cbv zeta. induction symbols as [|a symbols (IHs & IHq & IHl)]; cbn.
  - now repeat split.
  - unfold subscribed, queried, loop_threads in *. cbn.
    rewrite IHs, IHq, IHl. now repeat split.
Qed.

#[local] Abbreviation admin_db := "/server/database/admin/admin.db"%string.
#[local] Arguments client_run : simpl never.
#[local] Arguments subscribe_symbols : simpl never.

Lemma init_run (k d : string) (symbols : list string) (h : string) (p : Z)
  (w : world) :
  let r := __init__ k d symbols h p w in
  let c := current w in
  let opening :=
    [ (c, Log INFO "Initializing auction data collection daemon.");
      (c, Log DEBUG "Establishing server constants.");
      (c, QueryCredentials admin_db) ] in
  match credential_store (env w) admin_db with
  | inl x => fst r = Raised x /\ trace (snd r) = trace w ++ opening
  | inr cred =>
      fst r = (if run_returns (env w) then Normal tt else Hangs) /\
      exists es,
        trace (snd r)
        = trace w ++ opening
            ++ [ (c, NewCryptoStream (fst cred) (snd cred));
                 (c, Log DEBUG "Subscribing to asset pairs.") ]
            ++ map (fun a => (c, SubscribeQuotes (upper a))) symbols
            ++ [ (c, Log DEBUG "Begin runtime execution."); (c, ClientRun) ]
            ++ es
            ++ (if run_returns (env w)
                then [ (c, ThreadStart "CryptoClient" true) ] else []) /\
        queried es = [] /\ subscribed es = [] /\ loop_threads es = []
  end.
Proof.
  destruct w as [ev c s n sk t]. cbv zeta. cbn [env current trace].
  destruct (__init__ k d symbols h p _) as [r w'] eqn:E.
  unfold __init__ in E.
  destruct (credential_store ev admin_db) as [x | cred] eqn:Hq.
  - unfold queryCredentials in E. run_head E. rewrite Hq in E. run_head E.
    injection E as <- <-. cbn [fst snd trace].
    rewrite <- !app_assoc. now split.
  - unfold queryCredentials in E. run_head E. rewrite Hq in E. run_head E.
    match type of E with context [subscribe_symbols symbols ?W] =>
      destruct (subscribe_symbols_spec symbols W
                  {| api_key := fst cred; secret_key := snd cred;
                     quote_handlers := [] |} eq_refl)
        as (Hr & Ht & He & Hc & _ & Hk);
      destruct (subscribe_symbols symbols W) as [r1 w1]
    end.
    cbn [fst snd env current trace] in Hr, Ht, He, Hc, Hk. subst r1.
    run_head E.
    match type of E with context [client_run streamDataHandler ?W] =>
      destruct (client_run_spec W _ Hk)
        as (Hr2 & He2 & Hc2 & es & Ht2 & Hq2 & Hs2 & Hl2);
      destruct (client_run streamDataHandler W) as [r2 w2]
    end.
    cbn [fst snd env current trace] in Hr2, He2, Hc2, Ht2.
    rewrite He, Hc, Ht in *. subst r2.
    destruct (run_returns ev); cbn in E; injection E as <- <-;
      cbn [fst snd trace]; (split; [ reflexivity | ]); exists es;
      rewrite ?Ht2, ?Hc2, <- ?app_assoc; cbn [app]; rewrite ?app_nil_r;
      now repeat split.
Qed.

End Facts.

(** ** The snapshot store *)

Module StoreProps.
Import PyFloat PyJson Runtime Libraries LiveData Facts.
Open Scope string_scope.
Open Scope list_scope.

(** C1, as stated, fails: after the events for BTC/USD and then
    ETH/USD the store has no entry for BTC/USD, although a quote was
    merged for it; only the entry of the last event is there. *)
Lemma store_drops_earlier_symbols :
  let w' := snd (deliver [ btc_quote; eth_quote ] (started (listening [] true))) in
  last_merged "BTC/USD" [ btc_quote; eth_quote ] = Some btc_quote /\
  snapshot_lookup w' "BTC/USD" = None /\
  snapshot_lookup w' "ETH/USD" = Some (entry eth_quote).
Proof. vm_compute. repeat split. Qed.

(** C1, amended: after any non-empty sequence of events, a read of the
    store returns the entry of the last event under its symbol, which
    is the last quote merged for that symbol, and no entry for any
    other symbol. *)
Theorem store_holds_last_event_only
  (w : world) (qs : list quote) (q : quote) (sym : string) :
  let w' := snd (deliver (qs ++ [ q ]) w) in
  dict_get (read w') "Live Market Data" = Some (PDict [ (symbol q, entry q) ]) /\
  snapshot_lookup w' sym
  = if String.eqb sym (symbol q) then Some (entry q) else None.
Proof.
  cbv zeta. rewrite deliver_snoc_world.
  destruct (streamDataHandler_attempt q (snd (deliver qs w))) as [es H].
  unfold snapshot_lookup, read. rewrite (att_data _ _ _ _ H).
  unfold merge. rewrite dict_get_set_same. split; [ reflexivity | ].
  cbn [dict_get]. reflexivity.
Qed.

End StoreProps.

(** ** One send attempt *)

Module SendProps.
Import PyFloat PyJson Runtime Libraries LiveData Facts.
Open Scope string_scope.
Open Scope list_scope.

Section OneCall.

(** One call of the handler, on the event [q], from the world [w]. *)
Variable q : quote.
Variable w : world.

Let w' : world := snd (streamDataHandler q w).
Let es : list event := events_since w w'.

(** C3, on the code: when the connect step or the send step fails, the
    call of the handler does not return the error; it raises
    [NameError], because the [except] clauses call the name
    [exception], which the module never binds. *)
Theorem transport_failure_raises_name_error :
  transport_failure w ->
  fst (invoke (streamDataHandler q) w)
  = Normal (Raises (NameError "exception")).
Proof.
  intros Hf. unfold invoke.
  pose proof (streamDataHandler_result q w) as Hr.
  destruct (streamDataHandler q w) as [r w1]. cbn [fst] in Hr. subst r.
  unfold handler_result.
  destruct Hf as [[e He] | [Hc [e He]]].
  - rewrite He. reflexivity.
  - rewrite Hc, He. reflexivity.
Qed.

(** C4: one call of the handler creates one socket and closes it
    exactly once, whatever the peer answers; when the call is over
    that socket is closed and every other socket is as it was. *)
Theorem connection_closed_exactly_once :
  opened es = [ next_sock w ] /\
  closed es = [ next_sock w ] /\
  sock w' (next_sock w) = closed_socket /\
  forall i, sock w' i = if Nat.eqb i (next_sock w) then closed_socket else sock w i.
Proof.
  subst es w'. destruct (streamDataHandler_attempt q w) as [l H].
  rewrite (events_since_app _ _ _ (att_trace _ _ _ _ H)).
  repeat split.
  - exact (att_opened _ _ _ _ H).
  - exact (att_closed _ _ _ _ H).
  - rewrite (att_sock _ _ _ _ H), Nat.eqb_refl. reflexivity.
  - exact (att_sock _ _ _ _ H).
Qed.

(** C5, on the code: a failed connect leaves the store as the merge of
    the event wrote it, but the call reports [NameError] where the
    error of the connect step was to be returned. *)
Theorem connect_failure_outcome (e : exn) :
  connect_answer (env w) (next_sock w) = Some e ->
  let r := invoke (streamDataHandler q) w in
  fst r = Normal (Raises (NameError "exception")) /\
  fst r <> Normal (Returns (RError e)) /\
  read (snd r) = merge q (read w).
Proof.
  intros Hc. cbv zeta. unfold invoke.
  pose proof (streamDataHandler_result q w) as Hr.
  destruct (streamDataHandler_attempt q w) as [l H].
  destruct (streamDataHandler q w) as [r w1]. cbn [fst snd] in Hr, H. subst r.
  unfold handler_result. rewrite Hc. cbn [fst snd].
  repeat split.
  - discriminate.
  - exact (att_data _ _ _ _ H).
Qed.

(** C6, amended: the wait of one second is performed exactly when the
    connect step succeeded, on the success path and when the write
    fails; a call whose connect step fails does not wait. *)
Theorem pacing_wait_follows_connect :
  sleeps es
  = match connect_answer (env w) (next_sock w) with
    | Some _ => []
    | None => [ 1%Z ]
    end.
Proof.
  subst es w'. destruct (streamDataHandler_attempt q w) as [l H].
  rewrite (events_since_app _ _ _ (att_trace _ _ _ _ H)).
  exact (att_sleeps _ _ _ _ H).
Qed.

End OneCall.

(** The peer refuses the connection: the call raises [NameError]. *)
Lemma transport_failure_raises_name_error_witness :
  transport_failure (started (refusing [] true)) /\
  fst (invoke (streamDataHandler btc_quote) (started (refusing [] true)))
  = Normal (Raises (NameError "exception")).
Proof.
  assert (H : transport_failure (started (refusing [] true))).
  { left. exists (OSError 111). reflexivity. }
  split; [ exact H | ].
  exact (transport_failure_raises_name_error btc_quote _ H).
Defined.

(** The same refusal: the error 111 is not what the call hands back,
    and the store holds the entry of the event. *)
Lemma connect_failure_outcome_witness :
  let w := started (refusing [] true) in
  let r := invoke (streamDataHandler btc_quote) w in
  connect_answer (env w) (next_sock w) = Some (OSError 111) /\
  fst r = Normal (Raises (NameError "exception")) /\
  fst r <> Normal (Returns (RError (OSError 111))) /\
  read (snd r) = merge btc_quote (read w).
Proof.
  split; [ reflexivity | ].
  exact (connect_failure_outcome btc_quote (started (refusing [] true))
           (OSError 111) eq_refl).
Defined.

(** C6, as stated, fails: when the peer accepts the connection and the
    write then fails, the call fails and the wait is performed all the
    same. *)
Lemma failed_write_still_waits :
  let w := started (dropping [] true) in
  let r := streamDataHandler btc_quote w in
  fst r = Raised (NameError "exception") /\
  sleeps (events_since w (snd r)) = [ 1%Z ].
Proof. vm_compute. split; reflexivity. Qed.

(** C7: on a server whose store started empty, whatever events came
    before, the call for an event writes at most one document, and the
    document written is the serialization of one entry under the key
    [Live Market Data]: the entry of the symbol of that event, with the
    six fields [name], [time], [ask price], [ask size], [bid price] and
    [bid size] holding the symbol, the timestamp in seconds, and the
    prices and sizes of that event. *)
Theorem single_entry_document (w0 : world) (qs : list quote) (q : quote) :
  read w0 = [] ->
  let w := snd (deliver qs w0) in
  payloads (events_since w (snd (streamDataHandler q w)))
  = match connect_answer (env w) (next_sock w) with
    | Some _ => []
    | None =>
        [ bytes
            (serialize
               (PDict
                  [ ("Live Market Data",
                     PDict
                       [ (symbol q,
                          PDict
                            [ ("name", PStr (symbol q));
                              ("time",
                               PFloat (datetime_timestamp (timestamp q)));
                              ("ask price", PFloat (ask_price q));
                              ("ask size", PFloat (ask_size q));
                              ("bid price", PFloat (bid_price q));
                              ("bid size", PFloat (bid_size q)) ]) ]) ])) ]
    end.
Proof.
  intros H0. cbv zeta.
  assert (Hs : store_shape (read (snd (deliver qs w0)))).
  { apply deliver_store_shape. left. exact H0. }
  destruct (streamDataHandler_attempt q (snd (deliver qs w0))) as [es H].
  rewrite (events_since_app _ _ _ (att_trace _ _ _ _ H)).
  rewrite (att_payloads _ _ _ _ H).
  unfold read in Hs. rewrite (merge_store_shape q _ Hs).
  reflexivity.
Qed.

(** After an event for ETH/USD, the document of an event for BTC/USD
    has the entry of BTC/USD alone, with the values of that event. *)
Lemma single_entry_document_witness :
  let w0 := started (listening [] true) in
  let w := snd (deliver [ eth_quote ] w0) in
  let q := btc_quote in
  read w0 = [] /\
  payloads (events_since w (snd (streamDataHandler q w)))
  = match connect_answer (env w) (next_sock w) with
    | Some _ => []
    | None =>
        [ bytes
            (serialize
               (PDict
                  [ ("Live Market Data",
                     PDict
                       [ (symbol q,
                          PDict
                            [ ("name", PStr (symbol q));
                              ("time",
                               PFloat (datetime_timestamp (timestamp q)));
                              ("ask price", PFloat (ask_price q));
                              ("ask size", PFloat (ask_size q));
                              ("bid price", PFloat (bid_price q));
                              ("bid size", PFloat (bid_size q)) ]) ]) ])) ]
    end.
Proof.
  split; [ reflexivity | ].
  exact (single_entry_document (started (listening [] true))
           [ eth_quote ] btc_quote eq_refl).
Defined.

End SendProps.

(** ** The constructor *)

Module InitProps.
Import PyFloat PyJson Runtime Libraries LiveData Facts.
Open Scope string_scope.
Open Scope list_scope.

(** C2, on the code: the argument [target=self.client.run()] is a call,
    so the stream's loop runs on the thread that constructs the server,
    and on no other; the constructor comes back only if the loop does. *)
Theorem run_loop_on_constructing_thread
  (k d : string) (symbols : list string) (h : string) (p : Z) (w : world)
  (cred : string * string) :
  credential_store (env w) "/server/database/admin/admin.db" = inr cred ->
  let r := __init__ k d symbols h p w in
  loop_threads (events_since w (snd r)) = [ current w ] /\
  fst r = if run_returns (env w) then Normal tt else Hangs.
Proof.
  intros Hq. cbv zeta.
  pose proof (init_run k d symbols h p w) as H. cbv zeta in H.
  rewrite Hq in H. destruct H as (Hr & es & Ht & _ & _ & Hl).
  split; [ | exact Hr ].
  rewrite (events_since_app _ _ _ Ht).
  destruct (subscribe_calls_observed (current w) symbols) as (_ & _ & Hm).
  cbv zeta in Hm.
  autorewrite with observe. rewrite Hm, Hl.
  destruct (run_returns (env w)); reflexivity.
Qed.

Lemma run_loop_on_constructing_thread_witness :
  let w := boot (listening [ btc_quote ] false) in
  let r := __init__ default_keyfile default_database default_symbols
             default_host default_port w in
  credential_store (env w) "/server/database/admin/admin.db"
  = inr ("key", "secret") /\
  loop_threads (events_since w (snd r)) = [ MainThread ] /\
  fst r = Hangs.
Proof.
  split; [ reflexivity | ].
  exact (run_loop_on_constructing_thread default_keyfile default_database
           default_symbols default_host default_port
           (boot (listening [ btc_quote ] false)) ("key", "secret") eq_refl).
Defined.

(** The calls of the whole constructor when the stream delivers one
    event, the peer refuses the connection and the stream is then
    stopped: the loop and the handler run before the thread exists. *)
Example constructor_calls_in_order :
  map snd
    (trace (snd (__init__ default_keyfile default_database [ "btc/usd" ]
                   default_host default_port
                   (boot (refusing [ btc_quote ] true)))))
  = [ Log INFO "Initializing auction data collection daemon.";
      Log DEBUG "Establishing server constants.";
      QueryCredentials "/server/database/admin/admin.db";
      NewCryptoStream "key" "secret";
      Log DEBUG "Subscribing to asset pairs.";
      SubscribeQuotes "BTC/USD";
      Log DEBUG "Begin runtime execution.";
      ClientRun;
      Log INFO "Recieved live auction data for: BTC/USD";
      Log DEBUG "Data Recieved:";
      Log DEBUG "Updating data packet contents.";
      Log DEBUG "Connecting to the api hub.";
      SocketNew 0;
      Log DEBUG "Attempting connection.";
      SocketConnect 0 "127.0.0.1" 65535;
      SocketClose 0;
      ThreadStart "CryptoClient" true ].
Proof. vm_compute. reflexivity. Qed.

(** C9, as stated, fails: the empty collection and a collection with
    an identifier that has no slash are both subscribed without any
    error, by the loop and by the constructor as a whole. *)
Lemma malformed_symbols_are_subscribed :
  let w := started (listening [] true) in
  let r := subscribe_symbols [ "btcusd" ] w in
  spec_malformed_collection [] /\
  fst (subscribe_symbols [] w) = Normal tt /\
  spec_malformed_collection [ "btcusd" ] /\
  fst r = Normal tt /\
  subscribed (events_since w (snd r)) = [ "BTCUSD" ] /\
  fst (__init__ default_keyfile default_database [] default_host default_port
         (boot (listening [] true))) = Normal tt.
Proof.
  cbv zeta. repeat split; try (vm_compute; reflexivity).
  - left. reflexivity.
  - right. exists "btcusd". split; [ left; reflexivity | reflexivity ].
Qed.

(** C9, amended: the subscription loop checks nothing.  For every
    collection of symbols, empty, malformed or well formed, it ends
    without an error after subscribing each identifier, in upper case
    and in order.  The symbols are texts of the code points U+0000 to
    U+00FF whose upper case is in that range too. *)
Theorem subscription_accepts_any_symbols
  (symbols : list string) (w : world) (cl : cryptostream) :
  client (self w) = Some cl ->
  forallb upper_in_range symbols = true ->
  let r := subscribe_symbols symbols w in
  fst r = Normal tt /\
  subscribed (events_since w (snd r)) = map upper symbols.
Proof.
  intros Hcl _. cbv zeta.
  destruct (subscribe_symbols_spec symbols w cl Hcl) as (Hr & Ht & _).
  cbv zeta in Hr, Ht. split; [ exact Hr | ].
  rewrite (events_since_app _ _ _ Ht).
  apply (subscribe_calls_observed (current w) symbols).
Qed.

(** Three malformed identifiers, the last two with the letters U+00E9
    and U+00DF: they are subscribed as [BTCUSD], [U+00C9 TH/USD] and
    [STRASSE/USD]. *)
Lemma subscription_accepts_any_symbols_witness :
  let symbols :=
    [ "btcusd"; String (ascii_of_N 233) "th/usd";
      ("stra" ++ String (ascii_of_N 223) "e/usd")%string ] in
  let w := started (listening [] true) in
  let r := subscribe_symbols symbols w in
  client (self w)
  = Some {| api_key := "key"; secret_key := "secret"; quote_handlers := [] |} /\
  forallb upper_in_range symbols = true /\
  map upper symbols
  = [ "BTCUSD"; String (ascii_of_N 201) "TH/USD"; "STRASSE/USD" ] /\
  fst r = Normal tt /\
  subscribed (events_since w (snd r)) = map upper symbols.
Proof.
  split; [ reflexivity | split; [ reflexivity | split; [ reflexivity | ] ] ].
  exact (subscription_accepts_any_symbols
           [ "btcusd"; String (ascii_of_N 233) "th/usd";
             ("stra" ++ String (ascii_of_N 223) "e/usd")%string ]
           (started (listening [] true)) _ eq_refl eq_refl).
Defined.

(** C10: whatever [keyfile] and [database] are passed, the constructor
    consults one credential store, the one at
    [/server/database/admin/admin.db]. *)
Theorem credentials_from_fixed_path
  (k d : string) (symbols : list string) (h : string) (p : Z) (w : world) :
  queried (events_since w (snd (__init__ k d symbols h p w)))
  = [ "/server/database/admin/admin.db" ].
Proof.
  pose proof (init_run k d symbols h p w) as H. cbv zeta in H.
  destruct (credential_store (env w) "/server/database/admin/admin.db")
    as [x | cred].
  - destruct H as (_ & Ht). rewrite (events_since_app _ _ _ Ht). reflexivity.
  - destruct H as (_ & es & Ht & Hq & _).
    rewrite (events_since_app _ _ _ Ht).
    destruct (subscribe_calls_observed (current w) symbols) as (_ & Hm & _).
    cbv zeta in Hm.
    autorewrite with observe. rewrite Hm, Hq.
    destruct (run_returns (env w)); reflexivity.
Qed.

End InitProps.

(** ** The wire document *)

Module WireProps.
Import PyFloat PyJson Runtime Libraries LiveData Facts.
Open Scope string_scope.
Open Scope list_scope.

(** [repr] on some floats whose shortest decimal is well known. *)
Example repr_samples :
  map repr
    [ of_decimal false 1 (-1); of_decimal false 500005 (-1);
      of_decimal false 17 8; of_decimal false 1 16; of_decimal false 15 (-6);
      SFadd prec emax (of_decimal false 1 (-1)) (of_decimal false 2 (-1)) ]
  = [ "0.1"; "50000.5"; "1700000000.0"; "1e+16"; "1.5e-05";
      "0.30000000000000004" ].
Proof. vm_compute. reflexivity. Qed.

(** C8: the document the handler writes for the quote BTC/USD, ask
    50000.5 for 0.1, bid 50000.0 for 0.2, at 1700000000.0, is the JSON
    text below, and a JSON decoder reads it back as the structure with
    exactly these values. *)
Theorem quote_document_round_trip :
  let w := started (listening [] true) in
  let document :=
    PDict [ ("Live Market Data",
             PDict [ ("BTC/USD",
                      PDict [ ("name", PStr "BTC/USD");
                              ("time", PFloat (of_decimal false 17000000000 (-1)));
                              ("ask price", PFloat (of_decimal false 500005 (-1)));
                              ("ask size", PFloat (of_decimal false 1 (-1)));
                              ("bid price", PFloat (of_decimal false 500000 (-1)));
                              ("bid size", PFloat (of_decimal false 2 (-1))) ]) ]) ] in
  let text :=
    with_quotes
      ("{'Live Market Data': {'BTC/USD': {'name': 'BTC/USD', " ++
       "'time': 1700000000.0, 'ask price': 50000.5, 'ask size': 0.1, " ++
       "'bid price': 50000.0, 'bid size': 0.2}}}")%string in
  payloads (events_since w (snd (streamDataHandler btc_quote w)))
  = [ bytes text ] /\
  loads_bytes (bytes text) = Some document /\
  wire_document btc_quote = document.
Proof. vm_compute. repeat split. Qed.

End WireProps.

(** * Further properties *)

Module TextFacts.
Import PyFloat PyJson Runtime Libraries LiveData Facts Ledger.
Open Scope string_scope.
Open Scope list_scope.

(** ** Dictionaries and stores *)

Lemma dict_get_set_other (d : pydict) (k k' : string) (v : pyval) :
  k <> k' -> dict_get (dict_set d k' v) k = dict_get d k.
Proof.
  intros Hk. induction d as [|[k0 v0] d IH]; cbn [dict_set dict_get].
  - destruct (String.eqb_spec k k'); [ contradiction | reflexivity ].
  - destruct (String.eqb_spec k' k0) as [-> | Hn]; cbn [dict_get].
    + destruct (String.eqb_spec k k0); [ contradiction | reflexivity ].
    + destruct (String.eqb k k0); [ reflexivity | exact IH ].
Qed.

Lemma merge_all_snoc (qs : list quote) (q : quote) (d : pydict) :
  merge_all (qs ++ [ q ]) d = merge q (merge_all qs d).
Proof. unfold merge_all. rewrite fold_left_app. reflexivity. Qed.

Lemma merge_all_last (qs : list quote) (d : pydict) :
  store_shape d ->
  merge_all qs d
  = match rev qs with
    | [] => d
    | q :: _ => [ ("Live Market Data", PDict [ (symbol q, entry q) ]) ]
    end.
Proof.
  intros Hd. induction qs as [|q qs IH] using rev_ind; [ reflexivity | ].
  rewrite merge_all_snoc, rev_app_distr. cbn [rev app].
  apply merge_store_shape. rewrite IH.
  destruct (rev qs); [ exact Hd | right; eexists; reflexivity ].
Qed.

Lemma merge_all_other_keys (qs : list quote) (k : string) :
  k <> "Live Market Data" ->
  forall d, dict_get (merge_all qs d) k = dict_get d k.
Proof.
  intros Hk. induction qs as [|q qs IH]; intros d; [ reflexivity | ].
  cbn [merge_all fold_left]. fold (merge_all qs (merge q d)).
  rewrite IH. unfold merge. apply dict_get_set_other, Hk.
Qed.

(** ** The text of a port *)






End TextFacts.

Module LedgerFacts.
Import PyFloat PyJson Runtime Libraries LiveData Facts Ledger TextFacts.
Open Scope string_scope.
Open Scope list_scope.

#[local] Arguments dumps : simpl never.
#[local] Arguments utf8_encode : simpl never.
#[local] Arguments String.append : simpl never.
#[local] Arguments dict_set : simpl never.
#[local] Arguments events_since : simpl never.

(** One call of the handler makes the calls [attempt_calls], and leaves
    the server object as it was but for the store. *)
Lemma streamDataHandler_calls (q : quote) (w : world) :
  trace (snd (streamDataHandler q w))
  = trace w
    ++ map (pair (current w))
         (attempt_calls q (self w) (next_sock w)
            (connect_answer (env w) (next_sock w))
            (sendall_answer (env w) (next_sock w))) /\
  self (snd (streamDataHandler q w))
  = with_data (self w) (merge q (data (self w))).
Proof.
  destruct w as [ev c s n sk t]. cbn [env current self next_sock sock trace].
  unfold attempt_calls.
  by_answers ev n; rewrite <- ?app_assoc; cbn; split; reflexivity.
Qed.

(** The same over a sequence of events. *)
Lemma deliver_ledger (qs : list quote) :
  forall w,
    let w' := snd (deliver qs w) in
    trace w'
    = trace w
      ++ map (pair (current w))
           (deliver_calls (env w) (self w) (next_sock w) qs) /\
    env w' = env w /\ current w' = current w /\
    next_sock w' = (next_sock w + List.length qs)%nat /\
    data (self w') = merge_all qs (data (self w)) /\
    keyfile (self w') = keyfile (self w) /\
    database (self w') = database (self w) /\
    host (self w') = host (self w) /\
    port (self w') = port (self w) /\
    credentials (self w') = credentials (self w) /\
    client (self w') = client (self w).
Proof.
  induction qs as [|q qs IH]; intros w; cbv zeta.
  - rewrite deliver_nil. cbn. rewrite app_nil_r, Nat.add_0_r.
    repeat split.
  - rewrite deliver_cons.
    destruct (streamDataHandler_calls q w) as (Ht & Hs).
    destruct (streamDataHandler_attempt q w) as [es H].
    specialize (IH (snd (streamDataHandler q w))). cbv zeta in IH.
    destruct IH as (It & Ie & Ic & In_ & Id & Ik & Idb & Ih & Ip & Icr & Icl).
    rewrite It, Ie, Ic, In_, Id, Ik, Idb, Ih, Ip, Icr, Icl.
    rewrite (att_env _ _ _ _ H), (att_current _ _ _ _ H),
      (att_next_sock _ _ _ _ H), Ht, Hs.
    cbn [deliver_calls merge_all fold_left List.length with_data
           keyfile database host port data credentials client].
    rewrite map_app, <- app_assoc, Nat.add_succ_r.
    repeat split.
Qed.


(** ** Accounts over concatenated traces *)

Lemma connects_app (a b : list event) :
  connects (a ++ b) = connects a ++ connects b.
Proof. apply flat_map_app. Qed.

Lemma log_records_app (a b : list event) :
  Cli.log_records (a ++ b) = Cli.log_records a ++ Cli.log_records b.
Proof. apply flat_map_app. Qed.

Lemma open_after_app (a b : list event) (o : list nat) :
  open_after o (a ++ b) = open_after (open_after o a) b.
Proof. apply fold_left_app. Qed.

Lemma max_open_app (a b : list event) :
  forall o, max_open o (a ++ b)
            = Nat.max (max_open o a) (max_open (open_after o a) b).
Proof.
  induction a as [|e a IH]; intros o; cbn [app max_open open_after fold_left].
  - destruct b as [|e b]; cbn [max_open]; lia.
  - rewrite IH. unfold open_after. lia.
Qed.

Lemma open_at_sleeps_app (a b : list event) :
  forall o, open_at_sleeps o (a ++ b)
            = open_at_sleeps o a ++ open_at_sleeps (open_after o a) b.
Proof.
  induction a as [|e a IH]; intros o; cbn [app open_at_sleeps open_after fold_left].
  - reflexivity.
  - destruct e as [c k]. unfold step_open at 2. cbn [snd].
    destruct k; cbn [app]; rewrite IH; reflexivity.
Qed.

#[export] Hint Rewrite connects_app log_records_app open_after_app
  max_open_app open_at_sleeps_app map_app : observe.

(** ** Accounts of a sequence of calls of the handler *)

Section Accounts.

Variable e : environment.
Variable c : context.

Let events (s : liveDataServer) (id : nat) (qs : list quote) : list event :=
  map (pair c) (deliver_calls e s id qs).

Ltac one_attempt id :=
  unfold attempt_calls;
  destruct (connect_answer e id); [| destruct (sendall_answer e id) ];
  cbn; rewrite ?Nat.eqb_refl; cbn.

Lemma opened_deliver_calls (qs : list quote) :
  forall s id, opened (events s id qs) = seq id (List.length qs).
Proof.
  subst events. induction qs as [|q qs IH]; intros s id; [ reflexivity | ].
  cbn [deliver_calls List.length seq]. autorewrite with observe.
  rewrite IH. one_attempt id; reflexivity.
Qed.

Lemma closed_deliver_calls (qs : list quote) :
  forall s id, closed (events s id qs) = seq id (List.length qs).
Proof.
  subst events. induction qs as [|q qs IH]; intros s id; [ reflexivity | ].
  cbn [deliver_calls List.length seq]. autorewrite with observe.
  rewrite IH. one_attempt id; reflexivity.
Qed.

Lemma connects_deliver_calls (qs : list quote) :
  forall s id,
    connects (events s id qs)
    = map (fun i => (i, host s, port s)) (seq id (List.length qs)).
Proof.
  subst events. induction qs as [|q qs IH]; intros s id; [ reflexivity | ].
  cbn [deliver_calls List.length seq map]. autorewrite with observe.
  rewrite IH. one_attempt id; reflexivity.
Qed.

Lemma sleeps_deliver_calls (qs : list quote) :
  forall s id,
    sleeps (events s id qs) = repeat 1%Z (accepted e id (List.length qs)).
Proof.
  subst events. induction qs as [|q qs IH]; intros s id; [ reflexivity | ].
  cbn [deliver_calls List.length accepted]. autorewrite with observe.
  rewrite IH. one_attempt id; reflexivity.
Qed.

Lemma payloads_deliver_calls (qs : list quote) :
  forall s id,
    store_shape (data s) ->
    payloads (events s id qs) = accepted_documents e id qs.
Proof.
  subst events. induction qs as [|q qs IH]; intros s id Hs; [ reflexivity | ].
  cbn [deliver_calls accepted_documents]. autorewrite with observe.
  rewrite IH.
  - unfold attempt_calls.
    destruct (connect_answer e id); [| destruct (sendall_answer e id) ];
      cbn; rewrite ?(merge_store_shape q _ Hs); reflexivity.
  - cbn [with_data data]. right. eexists. apply merge_store_shape, Hs.
Qed.

Lemma logged_deliver_calls (qs : list quote) :
  forall s id,
    filter (fun r => Cli.level_no INFO <=? Cli.level_no (fst r))%Z
      (Cli.log_records (events s id qs))
    = map received qs /\
    filter (fun r => Cli.level_no ERROR <=? Cli.level_no (fst r))%Z
      (Cli.log_records (events s id qs))
    = [].
Proof.
  subst events. induction qs as [|q qs IH]; intros s id; [ now split | ].
  cbn [deliver_calls map]. autorewrite with observe. rewrite !filter_app.
  destruct (IH (with_data s (merge q (data s))) (S id)) as (-> & ->).
  one_attempt id; split; reflexivity.
Qed.

Lemma open_deliver_calls (qs : list quote) :
  forall s id,
    open_after [] (events s id qs) = [] /\
    max_open [] (events s id qs) = Nat.min 1 (List.length qs) /\
    open_at_sleeps [] (events s id qs)
    = repeat O (accepted e id (List.length qs)).
Proof.
  subst events. induction qs as [|q qs IH]; intros s id; [ now repeat split | ].
  cbn [deliver_calls List.length accepted]. autorewrite with observe.
  destruct (IH (with_data s (merge q (data s))) (S id)) as (Ho & Hm & Hs).
  assert (H1 : open_after []
                 (map (pair c)
                    (attempt_calls q s id (connect_answer e id)
                       (sendall_answer e id))) = []).
  { one_attempt id; reflexivity. }
  rewrite H1, Ho, Hm, Hs.
  one_attempt id; repeat split; destruct (List.length qs); reflexivity.
Qed.

End Accounts.


(** ** The constructor, up to the loop and after it *)

#[local] Arguments client_run : simpl never.
#[local] Arguments subscribe_symbols : simpl never.
#[local] Arguments deliver : simpl never.

#[local] Arguments handled : simpl never.

(** The handlers the subscription loop leaves: a message is wanted
    when its symbol is the upper case of one of the symbols, or when
    one of them is [*]. *)
Lemma existsb_add_handler (x a : string) (l : list string) :
  existsb (String.eqb x) (add_handler a l)
  = existsb (String.eqb x) l || String.eqb x a.
Proof.
  unfold add_handler. destruct (existsb (String.eqb a) l) eqn:E.
  - destruct (String.eqb x a) eqn:Ex; [ | now rewrite orb_false_r ].
    apply String.eqb_eq in Ex. subst x. now rewrite E.
  - rewrite existsb_app. cbn. now rewrite orb_false_r.
Qed.

Lemma existsb_subscribed (x : string) (symbols : list string) :
  forall l,
    existsb (String.eqb x)
      (fold_left (fun l a => add_handler (upper a) l) symbols l)
    = existsb (String.eqb x) l || existsb (String.eqb x) (map upper symbols).
Proof.
  induction symbols as [|a symbols IH]; intros l; cbn [fold_left map existsb].
  - now rewrite orb_false_r.
  - rewrite IH, existsb_add_handler, orb_assoc. reflexivity.
Qed.

Lemma wanted_subscriptions (symbols : list string) (q : quote) :
  wanted (subscriptions symbols) q = wanted (map upper symbols) q.
Proof.
  unfold wanted, subscriptions. now rewrite !existsb_subscribed.
Qed.

Lemma frame_handled_ext (e : environment) (l l' : list string) :
  (forall q, wanted l q = wanted l' q) ->
  forall msgs id, frame_handled e l id msgs = frame_handled e l' id msgs.
Proof.
  intros H. induction msgs as [|q msgs IH]; intros id; cbn [frame_handled].
  - reflexivity.
  - rewrite H, !IH. reflexivity.
Qed.

Lemma handled_subscriptions (e : environment) (symbols : list string)
  (frames : list (list quote)) :
  forall id,
    handled e (subscriptions symbols) id frames
    = handled e (map upper symbols) id frames.
Proof.
  induction frames as [|f frames IH]; intros id; unfold handled; fold handled.
  - reflexivity.
  - cbv zeta.
    rewrite (frame_handled_ext e _ _ (wanted_subscriptions symbols) f id), IH.
    reflexivity.
Qed.

Lemma subscribe_symbols_frame (symbols : list string) :
  forall w cl, client (self w) = Some cl ->
  let w' := snd (subscribe_symbols symbols w) in
  next_sock w' = next_sock w /\
  keyfile (self w') = keyfile (self w) /\
  database (self w') = database (self w) /\
  host (self w') = host (self w) /\
  port (self w') = port (self w) /\
  credentials (self w') = credentials (self w).
Proof.
  induction symbols as [|a symbols IH]; intros w cl Hcl; cbv zeta.
  - cbn. now repeat split.
  - destruct (subscribe_symbols (a :: symbols) w) as [r w'] eqn:E.
    unfold subscribe_symbols in E. cbn [for_each] in E.
    change (for_each symbols (fun asset => subscribe_quotes (upper asset)))
      with (subscribe_symbols symbols) in E.
    unfold bind at 1 in E.
    destruct w as [ev c s n sk t]. cbn [self] in Hcl.
    unfold subscribe_quotes in E. unfold bind at 1 in E. cbn [emit] in E.
    unfold bind at 1 in E.
    cbn [get_self self env current next_sock sock trace] in E.
    rewrite Hcl in E. cbn [set_self env current self next_sock sock trace] in E.
    match type of E with context [subscribe_symbols symbols ?W] =>
      set (w1 := W) in E end.
    edestruct (IH w1) as (Hn & Hk & Hd & Hh & Hp & Hc); [ reflexivity | ].
    cbv zeta in Hn, Hk, Hd, Hh, Hp, Hc.
    rewrite E in Hn, Hk, Hd, Hh, Hp, Hc. cbn [snd] in Hn, Hk, Hd, Hh, Hp, Hc |- *.
    subst w1.
    cbn [next_sock self keyfile database host port credentials]
      in Hn, Hk, Hd, Hh, Hp, Hc |- *.
    now repeat split.
Qed.

#[local] Abbreviation admin_db := "/server/database/admin/admin.db"%string.

(** The constructor whose credential query is answered: the world [w1]
    in which the loop begins to deliver, and what follows the loop. *)
Lemma init_decompose (k d : string) (symbols : list string) (h : string)
  (p : Z) (w : world) (cred : string * string) :
  credential_store (env w) admin_db = inr cred ->
  exists w1,
    trace w1 = trace w ++ map (pair (current w)) (startup_calls cred symbols) /\
    env w1 = env w /\ current w1 = current w /\ next_sock w1 = next_sock w /\
    keyfile (self w1) = k /\ database (self w1) = d /\
    host (self w1) = h /\ port (self w1) = p /\ data (self w1) = [] /\
    credentials (self w1) = Some cred /\
    let r := __init__ k d symbols h p w in
    let w2 :=
      snd (deliver
             (handled (env w) (map upper symbols) (next_sock w) (feed (env w)))
             w1) in
    fst r = (if run_returns (env w) then Normal tt else Hangs) /\
    self (snd r) = self w2 /\ next_sock (snd r) = next_sock w2 /\
    trace (snd r)
    = trace w2
      ++ (if run_returns (env w)
          then [ (current w, ThreadStart "CryptoClient" true) ] else []).
Proof.
  intros Hq. destruct w as [ev c s n sk t].
  cbn [env current trace next_sock] in Hq |- *.
  destruct (__init__ k d symbols h p _) as [r w'] eqn:E.
  unfold __init__, queryCredentials in E. run_head E. rewrite Hq in E. run_head E.
  match type of E with context [subscribe_symbols symbols ?W] =>
    destruct (subscribe_symbols_spec symbols W
                {| api_key := fst cred; secret_key := snd cred;
                   quote_handlers := [] |} eq_refl)
      as (Hr & Ht & He & Hc & Hd & Hcl);
    destruct (subscribe_symbols_frame symbols W
                {| api_key := fst cred; secret_key := snd cred;
                   quote_handlers := [] |} eq_refl)
      as (Hn & Hk & Hdb & Hh & Hp & Hcr);
    destruct (subscribe_symbols symbols W) as [r1 w1]
  end.
  cbn [fst snd env current trace self data next_sock keyfile database host
         port credentials client api_key secret_key quote_handlers]
    in Hr, Ht, He, Hc, Hd, Hn, Hk, Hdb, Hh, Hp, Hcr, Hcl.
  subst r1. run_head E.
  match type of E with context [client_run streamDataHandler ?W] =>
    rewrite (client_run_handled W _ Hcl) in E
  end.
  unfold emit in E.
  cbn [fst snd env current trace self next_sock sock quote_handlers] in E.
  change (fold_left (fun l a => add_handler (upper a) l) symbols [])
    with (subscriptions symbols) in E.
  rewrite handled_subscriptions, He, Hc, Ht, Hn in E.
  match type of E with context [deliver ?L ?W] =>
    set (w0 := W) in E; set (hs := L) in E |- * end.
  assert (F : trace w0 = t ++ map (pair c) (startup_calls cred symbols)).
  { subst w0. cbn [trace]. unfold startup_calls.
    rewrite !map_app, map_map, <- !app_assoc. reflexivity. }
  assert (G : env w0 = ev /\ current w0 = c /\ next_sock w0 = n /\
              keyfile (self w0) = k /\ database (self w0) = d /\
              host (self w0) = h /\ port (self w0) = p /\
              data (self w0) = [] /\ credentials (self w0) = Some cred).
  { subst w0. cbn [env current next_sock self]. now repeat split. }
  clearbody w0. exists w0.
  destruct G as (Ge & Gc & Gn & Gk & Gd & Gh & Gp & Gda & Gcr).
  repeat (split; [ assumption | ]). cbv zeta.
  destruct (deliver_ledger hs w0) as (_ & _ & Hc2 & _).
  cbv zeta in Hc2. rewrite Gc in Hc2.
  destruct (run_returns ev); run_head E; injection E as <- <-;
    cbn [fst snd self next_sock trace]; rewrite ?app_nil_r, ?Hc2;
    now repeat split.
Qed.


Lemma init_refused (k d : string) (symbols : list string) (h : string)
  (p : Z) (w : world) (x : exn) :
  credential_store (env w) admin_db = inl x ->
  let r := __init__ k d symbols h p w in
  fst r = Raised x /\
  trace (snd r)
  = trace w
    ++ map (pair (current w))
         [ Log INFO "Initializing auction data collection daemon.";
           Log DEBUG "Establishing server constants.";
           QueryCredentials admin_db ] /\
  self (snd r)
  = {| keyfile := k; database := d; host := h; port := p; data := [];
       credentials := None; client := None |} /\
  next_sock (snd r) = next_sock w.
Proof.
  intros Hq. destruct w as [ev c s n sk t].
  cbn [env current trace next_sock] in Hq |- *. cbv zeta.
  destruct (__init__ k d symbols h p _) as [r w'] eqn:E.
  unfold __init__, queryCredentials in E. run_head E. rewrite Hq in E. run_head E.
  injection E as <- <-. cbn [fst snd trace self next_sock map].
  rewrite <- !app_assoc. now repeat split.
Qed.

Lemma clients_app (a b : list event) :
  clients (a ++ b) = clients a ++ clients b.
Proof. apply flat_map_app. Qed.

(** The accounts of the subscription calls. *)
Lemma subscription_accounts (c : context) (symbols : list string) :
  let es := map (pair c) (map (fun a => SubscribeQuotes (upper a)) symbols) in
  connects es = [] /\ opened es = [] /\ closed es = [] /\ sleeps es = [] /\
  payloads es = [] /\ clients es = [] /\ Cli.log_records es = [] /\
  subscribed es = map upper symbols /\
  forall rest, before_loop (es ++ rest) = es ++ before_loop rest.
Proof.
  cbv zeta. induction symbols as [|a symbols IH].
  - now repeat split.
  - destruct IH as (H1 & H2 & H3 & H4 & H5 & H6 & H7 & H8 & H9).
    cbn [map]. repeat split; try assumption.
    + unfold subscribed in *. cbn [flat_map snd app]. now rewrite H8.
    + intros rest. cbn [app before_loop snd]. now rewrite H9.
Qed.

(** The accounts of the calls before the loop. *)
Lemma startup_accounts (c : context) (cred : string * string)
  (symbols : list string) :
  let es := map (pair c) (startup_calls cred symbols) in
  connects es = [] /\ opened es = [] /\ closed es = [] /\ sleeps es = [] /\
  payloads es = [] /\
  clients es = [ (fst cred, snd cred) ] /\
  subscribed es = map upper symbols /\
  clients (before_loop es) = [ (fst cred, snd cred) ] /\
  subscribed (before_loop es) = map upper symbols /\
  filter (fun r => Cli.level_no INFO <=? Cli.level_no (fst r))%Z
    (Cli.log_records es)
  = [ (INFO, "Initializing auction data collection daemon.") ].
Proof.
  cbv zeta. unfold startup_calls.
  destruct (subscription_accounts c symbols)
    as (H1 & H2 & H3 & H4 & H5 & H6 & H7 & H8 & H9).
  cbv zeta in H1, H2, H3, H4, H5, H6, H7, H8, H9.
  rewrite !map_app.
  set (subs := map (pair c) (map (fun a => SubscribeQuotes (upper a)) symbols)) in *.
  assert (B : before_loop
                (map (pair c)
                   [ Log INFO "Initializing auction data collection daemon.";
                     Log DEBUG "Establishing server constants.";
                     QueryCredentials admin_db;
                     NewCryptoStream (fst cred) (snd cred);
                     Log DEBUG "Subscribing to asset pairs." ]
                 ++ subs
                 ++ map (pair c) [ Log DEBUG "Begin runtime execution."; ClientRun ])
              = map (pair c)
                  [ Log INFO "Initializing auction data collection daemon.";
                    Log DEBUG "Establishing server constants.";
                    QueryCredentials admin_db;
                    NewCryptoStream (fst cred) (snd cred);
                    Log DEBUG "Subscribing to asset pairs." ]
                ++ subs ++ [ (c, Log DEBUG "Begin runtime execution.") ]).
  { cbn [map app before_loop snd]. rewrite H9. reflexivity. }
  rewrite B. clear B H9. clearbody subs.
  rewrite ?connects_app, ?opened_app, ?closed_app, ?sleeps_app, ?payloads_app,
    ?clients_app, ?subscribed_app, ?log_records_app, ?filter_app,
    ?H1, ?H2, ?H3, ?H4, ?H5, ?H6, ?H7, ?H8.
  cbn. rewrite ?app_nil_r. now repeat split.
Qed.


(** The whole trace of the constructor whose credential query is
    answered. *)
Lemma constructor_trace (k d : string) (symbols : list string) (h : string)
  (p : Z) (w : world) (cred : string * string) :
  credential_store (env w) admin_db = inr cred ->
  let r := __init__ k d symbols h p w in
  exists s1,
    host s1 = h /\ port s1 = p /\ data s1 = [] /\
    let hs :=
      handled (env w) (map upper symbols) (next_sock w) (feed (env w)) in
    events_since w (snd r)
    = map (pair (current w)) (startup_calls cred symbols)
      ++ map (pair (current w)) (deliver_calls (env w) s1 (next_sock w) hs)
      ++ (if run_returns (env w)
          then [ (current w, ThreadStart "CryptoClient" true) ] else []) /\
    data (self (snd r)) = merge_all hs [] /\
    fst r = (if run_returns (env w) then Normal tt else Hangs).
Proof.
  intros Hq. cbv zeta.
  destruct (init_decompose k d symbols h p w cred Hq)
    as (w1 & Ht & He & Hc & Hn & _ & _ & Hh & Hp & Hd & _ & H).
  cbv zeta in H. destruct H as (Hr & Hs & _ & Htr).
  match type of Hs with context [deliver ?L w1] =>
    destruct (deliver_ledger L w1) as (Lt & _ & _ & _ & Ld & _)
  end.
  cbv zeta in Lt, Ld.
  exists (self w1). repeat (split; [ assumption | ]).
  split; [ | split; [ | exact Hr ] ].
  - apply events_since_app.
    rewrite Htr, Lt, Ht, He, Hc, Hn, <- !app_assoc. reflexivity.
  - rewrite Hs, Ld, Hd. reflexivity.
Qed.

Lemma before_loop_stops (a b : list event) :
  loop_threads a <> [] -> before_loop (a ++ b) = before_loop a.
Proof.
  induction a as [|[c k] a IH]; intros Hl; [ now contradiction Hl | ].
  cbn [app before_loop snd]. unfold loop_threads in Hl, IH.
  cbn [flat_map snd fst app] in Hl.
  destruct k; try reflexivity; cbn [app] in Hl; now rewrite (IH Hl).
Qed.

Lemma startup_runs_loop (c : context) (cred : string * string)
  (symbols : list string) :
  loop_threads (map (pair c) (startup_calls cred symbols)) = [ c ].
Proof.
  unfold startup_calls. rewrite !map_app, !loop_threads_app.
  cbn. induction symbols as [|a symbols IH]; [ reflexivity | exact IH ].
Qed.

Lemma quiet_deliver_calls (e : environment) (c : context) (qs : list quote) :
  forall s id,
    let es := map (pair c) (deliver_calls e s id qs) in
    subscribed es = [] /\ clients es = [] /\ queried es = [] /\
    loop_threads es = [].
Proof.
  cbv zeta. induction qs as [|q qs IH]; intros s id; [ now repeat split | ].
  cbn [deliver_calls]. rewrite map_app, subscribed_app, clients_app,
    queried_app, loop_threads_app.
  destruct (IH (with_data s (merge q (data s))) (S id)) as (-> & -> & -> & ->).
  unfold attempt_calls.
  destruct (connect_answer e id); [| destruct (sendall_answer e id) ];
    now repeat split.
Qed.

(** ** The script *)

Lemma main_runs_constructor (a : Cli.namespace) (e : environment)
  (fs : string -> option exn) (n : Z) :
  fs (Cli.logfile a) = None ->
  Cli.int (Cli.port a) = inr n ->
  let r := __init__ default_keyfile default_database (Cli.trade_pairs a)
             default_host n (boot e) in
  Cli.main a (Cli.start e fs)
  = (fst r, {| Cli.open_append := fs;
               Cli.root_logger := Some (Cli.logfile a, INFO);
               Cli.machine := snd r |}).
Proof.
  intros Hf Hn. cbv zeta. unfold Cli.main, Cli.start, Cli.basicConfig.
  cbn [Cli.root_logger Cli.machine Cli.open_append]. rewrite Hf.
  cbn [Cli.root_logger Cli.machine Cli.open_append]. rewrite Hn.
  destruct (__init__ _ _ _ _ _ _) as [r w]. reflexivity.
Qed.

End LedgerFacts.

(** ** Sequences of events *)

Module SequenceProps.
Import PyFloat PyJson Runtime Libraries LiveData Facts Ledger TextFacts LedgerFacts.
Open Scope string_scope.
Open Scope list_scope.

Section ASequence.

(** The stream delivers the events [qs], from the world [w]. *)
Variable qs : list quote.
Variable w : world.

Let w' : world := snd (deliver qs w).
Let es : list event := events_since w w'.

Lemma sequence_events :
  es = map (pair (current w))
         (deliver_calls (env w) (self w) (next_sock w) qs).
Proof.
  subst es w'. destruct (deliver_ledger qs w) as (Ht & _).
  exact (events_since_app _ _ _ Ht).
Qed.

(** X1: every event gets a socket of its own, none is skipped, and
    each socket is closed: the sockets created and the sockets closed
    are the same, one per event, in the order of the events. *)
Theorem one_socket_per_event :
  opened es = seq (next_sock w) (List.length qs) /\
  closed es = seq (next_sock w) (List.length qs).
Proof.
  rewrite sequence_events. split.
  - apply opened_deliver_calls.
  - apply closed_deliver_calls.
Qed.

(** X2: along the whole sequence at most one socket is held at a time,
    and none is held when it is over, whichever calls failed. *)
Theorem at_most_one_connection_open :
  max_open [] es = Nat.min 1 (List.length qs) /\
  open_after [] es = [].
Proof.
  rewrite sequence_events.
  destruct (open_deliver_calls (env w) (current w) qs (self w) (next_sock w))
    as (Ho & Hm & _).
  split; assumption.
Qed.

(** X3: the socket is closed before the pacing wait: at every wait no
    socket is held. *)
Theorem no_connection_held_while_waiting :
  open_at_sleeps [] es = repeat O (List.length (sleeps es)).
Proof.
  rewrite sequence_events.
  destruct (open_deliver_calls (env w) (current w) qs (self w) (next_sock w))
    as (_ & _ & Hs).
  rewrite Hs, sleeps_deliver_calls, repeat_length. reflexivity.
Qed.

(** X4: every event leads to one connect call, and each goes to the
    host and the port of the server object. *)
Theorem connections_go_to_the_configured_endpoint :
  connects es
  = map (fun i => (i, host (self w), port (self w)))
      (seq (next_sock w) (List.length qs)).
Proof. rewrite sequence_events. apply connects_deliver_calls. Qed.

(** X5: the records logged at level INFO or above are one per event,
    the one that tells of its arrival; no record is ever logged at
    level ERROR, whatever fails. *)
Theorem failures_leave_no_log_record :
  filter (fun r => Cli.level_no INFO <=? Cli.level_no (fst r))%Z
    (Cli.log_records es)
  = map received qs /\
  filter (fun r => Cli.level_no ERROR <=? Cli.level_no (fst r))%Z
    (Cli.log_records es)
  = [].
Proof. rewrite sequence_events. apply logged_deliver_calls. Qed.

(** X6: the handler changes nothing of the server object but its
    store, and nothing of the environment. *)
Theorem handler_changes_only_the_store :
  keyfile (self w') = keyfile (self w) /\
  database (self w') = database (self w) /\
  host (self w') = host (self w) /\
  port (self w') = port (self w) /\
  credentials (self w') = credentials (self w) /\
  client (self w') = client (self w) /\
  env w' = env w.
Proof.
  subst w'.
  destruct (deliver_ledger qs w)
    as (_ & He & _ & _ & _ & Hk & Hd & Hh & Hp & Hc & Hl).
  now repeat split.
Qed.

(** X7: on a store that is empty or holds the one key, the documents
    written over the sequence are those of the events whose connection
    was accepted, each its own single entry, in order; the event of a
    refused connection is in no later document. *)
Theorem documents_of_accepted_events :
  store_shape (read w) ->
  payloads es = accepted_documents (env w) (next_sock w) qs.
Proof.
  intros Hs. rewrite sequence_events.
  apply payloads_deliver_calls. exact Hs.
Qed.

(** X8: there is one wait of one second for each connection that was
    accepted, and no other. *)
Theorem one_wait_per_accepted_connection :
  sleeps es = repeat 1%Z (accepted (env w) (next_sock w) (List.length qs)).
Proof. rewrite sequence_events. apply sleeps_deliver_calls. Qed.

(** X9: the handler leaves every other top-level key of the store and
    its value as they were. *)
Theorem other_keys_are_kept (k : string) :
  k <> "Live Market Data" ->
  dict_get (read w') k = dict_get (read w) k.
Proof.
  intros Hk. subst w'. unfold read.
  destruct (deliver_ledger qs w) as (_ & _ & _ & _ & Hd & _).
  cbv zeta in Hd. rewrite Hd. apply merge_all_other_keys, Hk.
Qed.

(** X10: the calls made for an event after any history are those made
    for it on a server with the same endpoint and an empty store:
    earlier events and their failures change nothing but the number of
    the socket. *)
Theorem earlier_events_leave_no_mark (q : quote) (v : world) :
  store_shape (read w) ->
  read v = [] ->
  env v = env w ->
  current v = current w ->
  host (self v) = host (self w) ->
  port (self v) = port (self w) ->
  next_sock v = (next_sock w + List.length qs)%nat ->
  events_since w' (snd (streamDataHandler q w'))
  = events_since v (snd (streamDataHandler q v)).
Proof.
  intros Hs Hv He Hc Hh Hp Hn. subst w'.
  destruct (deliver_ledger qs w)
    as (_ & Le & Lc & Ln & Ld & _ & _ & Lh & Lp & _).
  cbv zeta in Le, Lc, Ln, Ld, Lh, Lp.
  destruct (streamDataHandler_calls q (snd (deliver qs w))) as (H1 & _).
  destruct (streamDataHandler_calls q v) as (H2 & _).
  rewrite (events_since_app _ _ _ H1), (events_since_app _ _ _ H2).
  rewrite Le, Lc, Ln, He, Hc, Hn. unfold attempt_calls.
  rewrite Lh, Lp, Hh, Hp, Ld.
  unfold read in Hv, Hs. rewrite Hv.
  rewrite (merge_store_shape q (merge_all qs (data (self w)))).
  - reflexivity.
  - rewrite (merge_all_last qs _ Hs).
    destruct (rev qs); [ exact Hs | right; eexists; reflexivity ].
Qed.

End ASequence.

(** The first connection is refused, the second accepted: the only
    document written is the one of the second event. *)
Lemma documents_of_accepted_events_witness :
  let w := started (flaky [] true) in
  let qs := [ btc_quote; eth_quote ] in
  store_shape (read w) /\
  payloads (events_since w (snd (deliver qs w)))
  = accepted_documents (env w) (next_sock w) qs.
Proof.
  assert (H : store_shape (read (started (flaky [] true)))) by (left; reflexivity).
  split; [ exact H | ].
  exact (documents_of_accepted_events [ btc_quote; eth_quote ] _ H).
Defined.

(** The store holds the key [settings] beside the events: after two
    events its value is still there. *)
Lemma other_keys_are_kept_witness :
  let w := configured (listening [] true) in
  "settings" <> "Live Market Data" /\
  dict_get (read w) "settings" = Some (PStr "fast") /\
  dict_get (read (snd (deliver [ btc_quote; eth_quote ] w))) "settings"
  = dict_get (read w) "settings".
Proof.
  assert (H : "settings" <> "Live Market Data") by discriminate.
  split; [ exact H | split; [ reflexivity | ] ].
  exact (other_keys_are_kept [ btc_quote; eth_quote ]
           (configured (listening [] true)) "settings" H).
Defined.

(** After a refused event, the calls for the next event are those of a
    first event on the second socket. *)
Lemma earlier_events_leave_no_mark_witness :
  let w := started (flaky [] true) in
  let v := {| env := flaky [] true; current := MainThread;
              self := fresh_server; next_sock := 1;
              sock := fun _ => closed_socket; trace := [] |} in
  let w' := snd (deliver [ btc_quote ] w) in
  events_since w' (snd (streamDataHandler eth_quote w'))
  = events_since v (snd (streamDataHandler eth_quote v)).
Proof.
  apply (earlier_events_leave_no_mark [ btc_quote ] (started (flaky [] true))
           eth_quote); try reflexivity.
  left. reflexivity.
Defined.

End SequenceProps.

(** ** The constructor, from the credentials to the loop *)

Module StartupProps.
Import PyFloat PyJson Runtime Libraries LiveData Facts Ledger TextFacts LedgerFacts.
Open Scope string_scope.
Open Scope list_scope.

#[local] Arguments handled : simpl never.

Section AConstruction.

(** A call of the constructor, from the world [w]. *)
Variables (k d : string) (symbols : list string) (h : string) (p : Z).
Variable w : world.

Let r : result unit * world := __init__ k d symbols h p w.
Let es : list event := events_since w (snd r).

(** X11: when the credential store raises, the constructor raises the
    same exception right after the query: no stream client is created,
    nothing is subscribed, the loop is not run, and the object is left
    without credentials and without client. *)
Theorem credential_failure_stops_the_constructor (x : exn) :
  credential_store (env w) "/server/database/admin/admin.db" = inl x ->
  fst r = Raised x /\
  map snd es
  = [ Log INFO "Initializing auction data collection daemon.";
      Log DEBUG "Establishing server constants.";
      QueryCredentials "/server/database/admin/admin.db" ] /\
  credentials (self (snd r)) = None /\
  client (self (snd r)) = None.
Proof.
  intros Hq. subst es r.
  destruct (init_refused k d symbols h p w x Hq) as (Hr & Ht & Hs & _).
  cbv zeta in Hr, Ht, Hs.
  rewrite (events_since_app _ _ _ Ht), Hr, Hs. now repeat split.
Qed.

(** X12: when the store answers, one stream client is created, with the
    key and the secret of the store in that order, and every symbol is
    subscribed, in upper case and in order, before the loop is run;
    nothing is subscribed afterwards.  The symbols are texts of the
    code points U+0000 to U+00FF whose upper case is in that range. *)
Theorem client_and_subscriptions_precede_the_loop (cred : string * string) :
  credential_store (env w) "/server/database/admin/admin.db" = inr cred ->
  forallb upper_in_range symbols = true ->
  clients (before_loop es) = [ (fst cred, snd cred) ] /\
  subscribed (before_loop es) = map upper symbols /\
  clients es = [ (fst cred, snd cred) ] /\
  subscribed es = map upper symbols.
Proof.
  intros Hq _. subst es r.
  destruct (constructor_trace k d symbols h p w cred Hq)
    as (s1 & _ & _ & _ & Ht & _).
  cbv zeta in Ht. rewrite Ht.
  destruct (startup_accounts (current w) cred symbols)
    as (_ & _ & _ & _ & _ & Hc & Hs & Hbc & Hbs & _).
  cbv zeta in Hc, Hs, Hbc, Hbs.
  match goal with |- context [deliver_calls ?E ?S ?I ?L] =>
    destruct (quiet_deliver_calls E (current w) L S I) as (Qs & Qc & _)
  end.
  cbv zeta in Qs, Qc.
  rewrite before_loop_stops
    by (rewrite startup_runs_loop; discriminate).
  rewrite !clients_app, !subscribed_app, Hc, Hs, Hbc, Hbs, Qs, Qc.
  destruct (run_returns (env w)); cbn; rewrite ?app_nil_r; now repeat split.
Qed.

(** X13: when the store answers, the store of the object after the
    constructor is empty if the client handed no event to the handler,
    and holds the entry of the last event handed over otherwise, with
    the six fields of that event.  The events handed over are those of
    a subscribed symbol, up to the first call that raises in each
    frame. *)
Theorem store_after_the_constructor (cred : string * string) :
  credential_store (env w) "/server/database/admin/admin.db" = inr cred ->
  forallb upper_in_range symbols = true ->
  read (snd r)
  = match rev (handled (env w) (map upper symbols) (next_sock w)
                 (feed (env w))) with
    | [] => []
    | q :: _ => [ ("Live Market Data", PDict [ (symbol q, quote_fields q) ]) ]
    end.
Proof.
  intros Hq _. subst r.
  destruct (constructor_trace k d symbols h p w cred Hq)
    as (s1 & _ & _ & _ & _ & Hd & _).
  cbv zeta in Hd. unfold read. rewrite Hd.
  rewrite merge_all_last by (left; reflexivity).
  destruct (rev _); reflexivity.
Qed.

End AConstruction.

(** The credential store cannot be read: the constructor raises its
    error after three calls. *)
Lemma credential_failure_stops_the_constructor_witness :
  let w := boot (unreadable [ btc_quote ] true) in
  let r := __init__ default_keyfile default_database default_symbols
             default_host default_port w in
  credential_store (env w) "/server/database/admin/admin.db"
  = inl (OtherError "OperationalError") /\
  fst r = Raised (OtherError "OperationalError") /\
  map snd (events_since w (snd r))
  = [ Log INFO "Initializing auction data collection daemon.";
      Log DEBUG "Establishing server constants.";
      QueryCredentials "/server/database/admin/admin.db" ] /\
  credentials (self (snd r)) = None /\
  client (self (snd r)) = None.
Proof.
  split; [ reflexivity | ].
  exact (credential_failure_stops_the_constructor default_keyfile
           default_database default_symbols default_host default_port
           (boot (unreadable [ btc_quote ] true)) _ eq_refl).
Defined.

(** Two symbols in lower case, one with the letter U+00E9, and a stream
    that delivers one event. *)
Lemma client_and_subscriptions_precede_the_loop_witness :
  let symbols := [ "btc/usd"; String (ascii_of_N 233) "th/usd" ] in
  let w := boot (listening [ btc_quote ] true) in
  let es := events_since w
              (snd (__init__ default_keyfile default_database
                      symbols default_host default_port w)) in
  credential_store (env w) "/server/database/admin/admin.db"
  = inr ("key", "secret") /\
  forallb upper_in_range symbols = true /\
  map upper symbols = [ "BTC/USD"; String (ascii_of_N 201) "TH/USD" ] /\
  clients (before_loop es) = [ ("key", "secret") ] /\
  subscribed (before_loop es) = map upper symbols /\
  clients es = [ ("key", "secret") ] /\
  subscribed es = map upper symbols.
Proof.
  split; [ reflexivity | split; [ reflexivity | split; [ reflexivity | ] ] ].
  exact (client_and_subscriptions_precede_the_loop default_keyfile
           default_database [ "btc/usd"; String (ascii_of_N 233) "th/usd" ]
           default_host default_port
           (boot (listening [ btc_quote ] true)) ("key", "secret")
           eq_refl eq_refl).
Defined.

(** Only BTC/USD is subscribed and the first connection is refused.
    The first frame holds BTC/USD twice and the second ETH/USD and
    then BTC/USD: the handler gets the first message, whose call
    raises, and the last; the store holds the entry of BTC/USD. *)
Lemma store_after_the_constructor_witness :
  let frames := [ [ btc_quote; btc_quote ]; [ eth_quote; btc_quote ] ] in
  let w := boot (in_frames frames (flaky [] true)) in
  credential_store (env w) "/server/database/admin/admin.db"
  = inr ("key", "secret") /\
  forallb upper_in_range default_symbols = true /\
  handled (env w) (map upper default_symbols) (next_sock w) (feed (env w))
  = [ btc_quote; btc_quote ] /\
  read (snd (__init__ default_keyfile default_database default_symbols
               default_host default_port w))
  = match rev (handled (env w) (map upper default_symbols) (next_sock w)
                 (feed (env w))) with
    | [] => []
    | q :: _ => [ ("Live Market Data", PDict [ (symbol q, quote_fields q) ]) ]
    end.
Proof.
  split; [ reflexivity | split; [ reflexivity | split; [ reflexivity | ] ] ].
  exact (store_after_the_constructor default_keyfile default_database
           default_symbols default_host default_port
           (boot (in_frames [ [ btc_quote; btc_quote ]; [ eth_quote; btc_quote ] ]
                    (flaky [] true)))
           ("key", "secret") eq_refl eq_refl).
Defined.

End StartupProps.

(** ** The script *)

Module ScriptProps.
Import PyFloat PyJson Runtime Libraries LiveData Facts Ledger TextFacts LedgerFacts.
Open Scope string_scope.
Open Scope list_scope.

#[local] Arguments handled : simpl never.

Section AScript.

(** The script run with the namespace [a], in the environment [e], on
    the file system [fs]. *)
Variable a : Cli.namespace.
Variable e : environment.
Variable fs : string -> option exn.

Let p : Cli.process := snd (Cli.main a (Cli.start e fs)).

(** X14: the option [--host] has no effect: when the log file can be
    opened, the port is a number [n] and the credential store answers,
    the script connects once per event handed to the handler, each
    time to 127.0.0.1 at port [n], whatever host the namespace holds. *)
Theorem script_connects_to_the_default_host (n : Z) (cred : string * string) :
  fs (Cli.logfile a) = None ->
  Cli.int (Cli.port a) = inr n ->
  credential_store e "/server/database/admin/admin.db" = inr cred ->
  forallb upper_in_range (Cli.trade_pairs a) = true ->
  connects (trace (Cli.machine p))
  = map (fun i => (i, "127.0.0.1", n))
      (seq 0 (List.length
                (handled e (map upper (Cli.trade_pairs a)) 0 (feed e)))).
Proof.
  intros Hf Hn Hq _. subst p. rewrite (main_runs_constructor a e fs n Hf Hn).
  cbn [snd Cli.machine].
  destruct (constructor_trace default_keyfile default_database
              (Cli.trade_pairs a) default_host n (boot e) cred Hq)
    as (s1 & Hh & Hp & _ & Ht & _).
  cbv zeta in Ht. unfold events_since in Ht.
  cbn [boot trace List.length skipn env current next_sock] in Ht.
  rewrite Ht, !connects_app, connects_deliver_calls, Hh, Hp.
  destruct (startup_accounts MainThread cred (Cli.trade_pairs a)) as (-> & _).
  destruct (run_returns e); cbn [app connects flat_map snd];
    rewrite ?app_nil_r; reflexivity.
Qed.


(** X16: when the log file can be opened, the port is a number and the
    credential store answers, the records of the module's own logging
    calls that reach the log file are the record of the start and one
    record per event handed to the handler, telling of its arrival; no
    record of the module tells of a failed connection or upload. *)
Theorem module_records_in_the_log_file (n : Z) (cred : string * string) :
  fs (Cli.logfile a) = None ->
  Cli.int (Cli.port a) = inr n ->
  credential_store e "/server/database/admin/admin.db" = inr cred ->
  forallb upper_in_range (Cli.trade_pairs a) = true ->
  Cli.own_records p
  = (INFO, "Initializing auction data collection daemon.")
    :: map received (handled e (map upper (Cli.trade_pairs a)) 0 (feed e)).
Proof.
  intros Hf Hn Hq _. subst p. rewrite (main_runs_constructor a e fs n Hf Hn).
  cbn [snd]. unfold Cli.own_records. cbn [Cli.root_logger Cli.machine].
  destruct (constructor_trace default_keyfile default_database
              (Cli.trade_pairs a) default_host n (boot e) cred Hq)
    as (s1 & _ & _ & _ & Ht & _).
  cbv zeta in Ht. unfold events_since in Ht.
  cbn [boot trace List.length skipn env current next_sock] in Ht.
  rewrite Ht, !log_records_app, !filter_app.
  destruct (startup_accounts MainThread cred (Cli.trade_pairs a))
    as (_ & _ & _ & _ & _ & _ & _ & _ & _ & ->).
  match goal with |- context [deliver_calls e ?S ?I ?L] =>
    destruct (logged_deliver_calls e MainThread L S I) as (-> & _)
  end.
  destruct (run_returns e); cbn; rewrite ?app_nil_r; reflexivity.
Qed.

End AScript.

(** The script with [--host 10.0.0.1 --port 8080] and both symbols, a
    stream of two events: both connections go to 127.0.0.1. *)
Lemma script_connects_to_the_default_host_witness :
  let a := {| Cli.trade_pairs := [ "btc/usd"; "eth/usd" ];
              Cli.logfile := "live.log";
              Cli.port := Cli.PortStr "8080"; Cli.host := "10.0.0.1" |} in
  let e := listening [ btc_quote; eth_quote ] true in
  Cli.writable (Cli.logfile a) = None /\
  Cli.int (Cli.port a) = inr 8080%Z /\
  credential_store e "/server/database/admin/admin.db" = inr ("key", "secret") /\
  forallb upper_in_range (Cli.trade_pairs a) = true /\
  handled e (map upper (Cli.trade_pairs a)) 0 (feed e)
  = [ btc_quote; eth_quote ] /\
  connects (trace (Cli.machine (snd (Cli.main a (Cli.start e Cli.writable)))))
  = map (fun i => (i, "127.0.0.1", 8080%Z))
      (seq 0 (List.length
                (handled e (map upper (Cli.trade_pairs a)) 0 (feed e)))).
Proof.
  repeat (split; [ reflexivity | ]).
  exact (script_connects_to_the_default_host
           {| Cli.trade_pairs := [ "btc/usd"; "eth/usd" ];
              Cli.logfile := "live.log";
              Cli.port := Cli.PortStr "8080"; Cli.host := "10.0.0.1" |}
           (listening [ btc_quote; eth_quote ] true) Cli.writable
           8080%Z ("key", "secret") eq_refl eq_refl eq_refl eq_refl).
Defined.


(** The script with its defaults where the log file can be opened, a
    closed port and a stream of BTC/USD and then ETH/USD: the module's
    records in the log file tell of the start and of the arrival of
    BTC/USD, the one symbol subscribed. *)
Lemma module_records_in_the_log_file_witness :
  let a := Cli.default_arguments in
  let e := refusing [ btc_quote; eth_quote ] true in
  Cli.writable (Cli.logfile a) = None /\
  Cli.int (Cli.port a) = inr 65535%Z /\
  credential_store e "/server/database/admin/admin.db" = inr ("key", "secret") /\
  forallb upper_in_range (Cli.trade_pairs a) = true /\
  handled e (map upper (Cli.trade_pairs a)) 0 (feed e) = [ btc_quote ] /\
  Cli.own_records (snd (Cli.main a (Cli.start e Cli.writable)))
  = (INFO, "Initializing auction data collection daemon.")
    :: map received (handled e (map upper (Cli.trade_pairs a)) 0 (feed e)).
Proof.
  repeat (split; [ reflexivity | ]).
  exact (module_records_in_the_log_file Cli.default_arguments
           (refusing [ btc_quote; eth_quote ] true) Cli.writable
           65535%Z ("key", "secret") eq_refl eq_refl eq_refl eq_refl).
Defined.

End ScriptProps.
